(** * wallet-gas-monitor: the check / evaluate / alert cycle of [index.js]

    A shallow embedding of [src/index.js].  JavaScript numbers are IEEE-754
    binary64 values and are modelled by Rocq's primitive floats, so that
    [<], [*] and [-] below are the very operations the program performs.
    Objects used as dictionaries ([state.lastAlerts], the price table) are
    finite maps with string keys; [config.chains], whose entries are
    enumerated in order by [Object.entries], is an association list.

    Every interaction with the outside (console, HTTPS, RPC nodes, the file
    system, the Telegram API) is recorded as an [Event] in a trace, and its
    outcome is read from an environment [Env].  An [await] is a sequencing
    step: a rejected promise is a thrown exception at the [await].

    What the collaborators answer is typed: the price response is an object
    of entries with an optional numeric [usd]; the state file, when
    [JSON.parse] accepts it, holds either an object whose [lastAlerts] is a
    dictionary of numbers or a value that has no [lastAlerts] at all (see
    [Stored]); the configuration has the fields the program reads.  The text rendering of numbers and messages ([toFixed],
    [toExponential], template strings) is not modelled: log lines and the
    alert message carry the interpolated data instead of the rendered
    text. *)

From Corelib Require Import PrimFloat.
From stdpp Require Import base option list strings gmap.

(** ** JavaScript values *)

(** [x || 0] for a numeric [x] that may be [undefined]: a number is falsy
    when it is [0], [-0] or [NaN]. *)
Definition truthy (x : float) : bool := negb (is_zero x || is_nan x).

Definition or_zero (x : option float) : float :=
  match x with
  | Some v => if truthy v then v else 0%float
  | None => 0%float
  end.

(** The completion of an evaluation: a value, or a thrown [Error] of which
    only [err.message] is ever inspected. *)
Inductive Completion (A : Type) : Type :=
| Normal (a : A)
| Throw (message : string).
Arguments Normal {A} a.
Arguments Throw {A} message.

(** ** Configuration ([config.json]) *)

Module Chain.
Record t : Type := mk
  { name : string; symbol : string; rpc : string; coingecko_id : string }.
End Chain.

Record Telegram : Type :=
  { bot_token : string; chat_id : string }.

Record Config : Type :=
  { threshold_usd : float;
    check_interval_minutes : float;
    alert_cooldown_hours : float;
    evm_address : string;
    solana_address : string;
    chains : list (string * Chain.t);
    solana : Chain.t;
    telegram : Telegram }.

(** ** Data produced by a cycle *)

(** One entry of the price response, [{ usd: number }]; the field may be
    missing. *)
Record PriceEntry : Type := { usd : option float }.

(** The records pushed by [checkEVMBalances] and returned by
    [checkSolanaBalance]; [null] and a missing [error] field are [None]. *)
Record Reading : Type :=
  { chain : string;
    symbol : string;
    balance : option float;
    price : float;
    valueUSD : option float;
    address : string;
    key : string;
    error : option string }.

(** The object kept in [state.json]. *)
Record State : Type := { lastAlerts : gmap string float }.

(** What [JSON.parse] makes of the text of the state file.  The program
    writes objects with a [lastAlerts] dictionary, but the file may hold any
    JSON value.  [Shapeless json typeError] stands for a value with no
    dictionary to look into: [null], or a value whose [lastAlerts] is
    missing or [null] (such as the empty object).  On such a value
    [state.lastAlerts[key]] throws a [TypeError], whose message for [key] is
    [typeError key]; [json] is the text [JSON.stringify] gives back.  Values
    whose [lastAlerts] is present but is not a dictionary of numbers are not
    represented. *)
Inductive Stored : Type :=
| Cooldowns (state : State)
| Shapeless (json : string) (typeError : string → string).

Coercion Cooldowns : State >-> Stored.

Record AlertLine : Type :=
  { line_chain : string;
    line_balance : option float;
    line_symbol : string;
    line_value : option float;
    line_wallet : string }.

Record AlertMessage : Type :=
  { msg_lines : list AlertLine;
    msg_threshold : float;
    msg_checked : string }.

Record StatusEntry : Type :=
  { st_chain : string;
    st_symbol : string;
    st_balance : option float;
    st_valueUSD : option float;
    belowThreshold : bool }.

Record StatusData : Type :=
  { timestamp : string;
    prices : gmap string PriceEntry;
    balances : list StatusEntry }.

(** ** Effects *)

Inductive LogLine : Type :=
| LogRunning (ts : string)
| LogPrices (p : gmap string PriceEntry)
| LogPricesFailed (message : string)
| LogChainError (chain_name : string) (message : string)
| LogSolanaError (message : string)
| LogTelegramResponse (data : string)
| LogTelegramError (message : string)
| LogBalancesHeader
| LogBalance (low : bool) (r : Reading)
| LogCooldownActive (chain_name : string)
| LogAlertsSent (n : nat)
| LogAllOk
| LogStarting
| LogEvmAddress (addr : string)
| LogSolanaAddress (addr : string)
| LogThreshold (usd_value : float)
| LogInterval (minutes : float)
| LogCooldown (hours : float)
| LogSeparator
| LogScheduled (minutes : float).

(** A call that leaves the process.  The event records that the call was
    made; whether it then returns or throws is decided by the [Env]. *)
Inductive Event : Type :=
| ConsoleLog (l : LogLine)
| ConsoleError (l : LogLine)
| HttpsGet (url : string)
| EvmGetBalance (rpc_url addr : string)
| SolanaGetBalance (rpc_url addr : string)
| ReadStateFile
| TelegramRequest (msg : AlertMessage)
| WriteStateFile (state : Stored)
| WriteStatusFile (data : StatusData)
| CronSchedule (minutes : float).

(** The collaborators of one cycle: what each outside call and each
    library call that may throw answers, the clock, and the library
    conversion the program applies to a balance. *)
Record Env : Type :=
  { (* [fetchJSON(url)]: the parsed body, or the rejection *)
    fetchJSON : string → Completion (gmap string PriceEntry);
    (* [new ethers.JsonRpcProvider(rpc).getBalance(address)], in wei *)
    evm_getBalance : string → string → Completion Z;
    (* [parseFloat(ethers.formatEther(balance))] *)
    etherNumber : Z → float;
    (* the constructors [new Connection(rpc, 'confirmed')] and
       [new PublicKey(address)] of [@solana/web3.js], which may throw *)
    new_Connection : string → Completion unit;
    new_PublicKey : string → Completion unit;
    (* [connection.getBalance(pubkey)], in lamports *)
    solana_getBalance : string → string → Completion float;
    (* [fs.readFileSync(STATE_FILE, 'utf8')] *)
    readStateFile : Completion string;
    (* [JSON.parse] on the text of the state file *)
    JSON_parse : string → Completion Stored;
    (* [Date.now()], [new Date().toISOString()], [toLocaleString(...)] *)
    Date_now : float;
    Date_toISOString : string;
    Date_toLocaleString : string;
    (* the HTTPS request to the Telegram Bot API: response body or error *)
    telegram_request : AlertMessage → Completion string;
    (* the two [fs.writeFileSync] calls *)
    writeStateFile : Stored → Completion unit;
    writeStatusFile : StatusData → Completion unit;
    (* [cron.schedule(expr, callback)] of [node-cron] for the expression
       built from the interval; it throws on an expression it rejects *)
    cron_schedule : float → Completion unit }.

(** Computations: the trace of events so far and how the evaluation
    completed. *)
Definition M (A : Type) : Type := list Event * Completion A.

Definition ret {A} (a : A) : M A := ([], Normal a).

Definition bind {A B} (m : M A) (f : A → M B) : M B :=
  match m with
  | (t, Normal a) => let '(t', c) := f a in (t ++ t', c)
  | (t, Throw e) => (t, Throw e)
  end.

Definition throw {A} (message : string) : M A := ([], Throw message).

(** [try { m } catch (err) { h err.message }] *)
Definition try_catch {A} (m : M A) (h : string → M A) : M A :=
  match m with
  | (t, Normal a) => (t, Normal a)
  | (t, Throw e) => let '(t', c) := h e in (t ++ t', c)
  end.

Definition call {A} (e : Event) (outcome : Completion A) : M A := ([e], outcome).
Definition console_log (l : LogLine) : M unit := ([ConsoleLog l], Normal tt).
Definition console_error (l : LogLine) : M unit := ([ConsoleError l], Normal tt).

Definition trace {A} (m : M A) : list Event := fst m.
Definition completion {A} (m : M A) : Completion A := snd m.

(** The sequencing notations [x ← m; k] and [m;; k] are those of stdpp. *)
#[global] Instance M_ret : MRet M := @ret.
#[global] Instance M_bind : MBind M := λ A B f m, bind m f.

(** ** [loadState] and [saveState] *)

Definition emptyState : State := {| lastAlerts := ∅ |}.

Definition loadState (env : Env) : M Stored :=
  try_catch
    (text ← call ReadStateFile (readStateFile env);
     (([], JSON_parse env text) : M Stored))
    (λ _, ret (Cooldowns emptyState)).

Definition saveState (env : Env) (state : Stored) : M unit :=
  call (WriteStateFile state) (writeStateFile env state).

(** ** [getPrices] *)

(** [ids.add(id)] on a JavaScript [Set], kept in insertion order. *)
Definition Set_add (ids : list string) (id : string) : list string :=
  if bool_decide (id ∈ ids) then ids else ids ++ [id].

(** [[...ids].join(sep)] *)
Fixpoint join (sep : string) (l : list string) : string :=
  match l with
  | [] => ""
  | [x] => x
  | x :: rest => x +:+ sep +:+ join sep rest
  end.

Definition pricesUrl (cfg : Config) : string :=
  let ids := foldl Set_add [] ((Chain.coingecko_id ∘ snd) <$> chains cfg) in
  let ids := Set_add ids (Chain.coingecko_id (solana cfg)) in
  "https://api.coingecko.com/api/v3/simple/price?ids="
    +:+ join "," ids +:+ "&vs_currencies=usd".

Definition getPrices (cfg : Config) (env : Env) : M (gmap string PriceEntry) :=
  let url := pricesUrl cfg in
  data ← call (HttpsGet url) (fetchJSON env url);
  mret data.

(** [prices[id]?.usd || 0] *)
Definition priceOf (prices : gmap string PriceEntry) (id : string) : float :=
  or_zero (prices !! id ≫= usd).

(** ** [checkEVMBalances] *)

(** The body of the [for] loop: one [try]/[catch] per configured chain. *)
Definition checkEVMChain (cfg : Config) (env : Env)
    (prices : gmap string PriceEntry) (entry : string * Chain.t) : M Reading :=
  let '(chainKey, c) := entry in
  try_catch
    (bal ← call (EvmGetBalance (Chain.rpc c) (evm_address cfg))
              (evm_getBalance env (Chain.rpc c) (evm_address cfg));
     let balanceNum := etherNumber env bal in
     let price := priceOf prices (Chain.coingecko_id c) in
     let valueUSD := (balanceNum * price)%float in
     mret {| chain := Chain.name c;
             symbol := Chain.symbol c;
             balance := Some balanceNum;
             price := price;
             valueUSD := Some valueUSD;
             address := evm_address cfg;
             key := "evm_" +:+ chainKey;
             error := None |})
    (λ message,
     console_error (LogChainError (Chain.name c) message);;
     mret {| chain := Chain.name c;
             symbol := Chain.symbol c;
             balance := None;
             price := 0%float;
             valueUSD := None;
             address := evm_address cfg;
             key := "evm_" +:+ chainKey;
             error := Some message |}).

(** The loop over [Object.entries(config.chains)], pushing onto [results]. *)
Fixpoint checkEVMLoop (cfg : Config) (env : Env)
    (prices : gmap string PriceEntry) (entries : list (string * Chain.t))
    (results : list Reading) : M (list Reading) :=
  match entries with
  | [] => mret results
  | entry :: rest =>
      r ← checkEVMChain cfg env prices entry;
      checkEVMLoop cfg env prices rest (results ++ [r])
  end.

Definition checkEVMBalances (cfg : Config) (env : Env)
    (prices : gmap string PriceEntry) : M (list Reading) :=
  checkEVMLoop cfg env prices (chains cfg) [].

(** ** [checkSolanaBalance] *)

(** The constant exported by [@solana/web3.js]. *)
Definition LAMPORTS_PER_SOL : float := 1000000000%float.

Definition checkSolanaBalance (cfg : Config) (env : Env)
    (prices : gmap string PriceEntry) : M Reading :=
  try_catch
    (((([], new_Connection env (Chain.rpc (solana cfg))) : M unit));;
     ((([], new_PublicKey env (solana_address cfg)) : M unit));;
     bal ← call (SolanaGetBalance (Chain.rpc (solana cfg)) (solana_address cfg))
              (solana_getBalance env (Chain.rpc (solana cfg)) (solana_address cfg));
     let balanceNum := (bal / LAMPORTS_PER_SOL)%float in
     let price := priceOf prices (Chain.coingecko_id (solana cfg)) in
     let valueUSD := (balanceNum * price)%float in
     mret {| chain := Chain.name (solana cfg);
             symbol := Chain.symbol (solana cfg);
             balance := Some balanceNum;
             price := price;
             valueUSD := Some valueUSD;
             address := solana_address cfg;
             key := "solana";
             error := None |})
    (λ message,
     console_error (LogSolanaError message);;
     mret {| chain := Chain.name (solana cfg);
             symbol := Chain.symbol (solana cfg);
             balance := None;
             price := 0%float;
             valueUSD := None;
             address := solana_address cfg;
             key := "solana";
             error := Some message |}).

(** ** [sendTelegramAlert] *)

(** The promise resolves when the response ends and rejects on the
    request's ['error'] event, after logging it. *)
Definition sendTelegramAlert (env : Env) (message : AlertMessage) : M unit :=
  try_catch
    (data ← call (TelegramRequest message) (telegram_request env message);
     console_log (LogTelegramResponse (String.substring 0 200 data)))
    (λ e,
     console_error (LogTelegramError e);;
     throw e).

(** ** [runCheck] *)

(** [r.valueUSD !== null && r.valueUSD < config.threshold_usd] *)
Definition isLow (cfg : Config) (r : Reading) : bool :=
  match valueUSD r with
  | Some v => (v <? threshold_usd cfg)%float
  | None => false
  end.

(** [config.alert_cooldown_hours * 60 * 60 * 1000] *)
Definition cooldownMs (cfg : Config) : float :=
  (alert_cooldown_hours cfg * 60 * 60 * 1000)%float.

(** The body of the loop over [allResults] (lines 191-204); [state] and
    [lowBalances] are the two objects it mutates.  The look-up
    [state.lastAlerts[r.key]] throws on a value without [lastAlerts]. *)
Definition evalReading (cfg : Config) (now : float) (r : Reading)
    (state : Stored) (lowBalances : list Reading) : M (Stored * list Reading) :=
  console_log (LogBalance (isLow cfg r) r);;
  if isLow cfg r then
    match state with
    | Cooldowns st =>
        let lastAlert := or_zero (lastAlerts st !! key r) in
        if (cooldownMs cfg <? now - lastAlert)%float then
          mret (Cooldowns {| lastAlerts := <[key r := now]> (lastAlerts st) |},
                lowBalances ++ [r])
        else
          console_log (LogCooldownActive (chain r));;
          mret (state, lowBalances)
    | Shapeless _ typeError => throw (typeError (key r))
    end
  else mret (state, lowBalances).

Fixpoint evaluate (cfg : Config) (now : float) (allResults : list Reading)
    (state : Stored) (lowBalances : list Reading) : M (Stored * list Reading) :=
  match allResults with
  | [] => mret (state, lowBalances)
  | r :: rest =>
      '(state', lowBalances') ← evalReading cfg now r state lowBalances;
      evaluate cfg now rest state' lowBalances'
  end.

(** The address shown in the message: shortened when longer than 20. *)
Definition shortAddr (a : string) : string :=
  if (20 <? String.length a)%nat
  then String.substring 0 6 a +:+ "..."
       +:+ String.substring (String.length a - 4) 4 a
  else a.

Definition alertMessage (cfg : Config) (env : Env)
    (lowBalances : list Reading) : AlertMessage :=
  {| msg_lines :=
       (λ r, {| line_chain := chain r;
                line_balance := balance r;
                line_symbol := symbol r;
                line_value := valueUSD r;
                line_wallet := shortAddr (address r) |}) <$> lowBalances;
     msg_threshold := threshold_usd cfg;
     msg_checked := Date_toLocaleString env |}.

Definition statusData (cfg : Config) (env : Env)
    (prices : gmap string PriceEntry) (allResults : list Reading) : StatusData :=
  {| timestamp := Date_toISOString env;
     prices := prices;
     balances :=
       (λ r, {| st_chain := chain r;
                st_symbol := symbol r;
                st_balance := balance r;
                st_valueUSD := valueUSD r;
                belowThreshold := isLow cfg r |}) <$> allResults |}.

(** Lines 179-181: the readings of one cycle, EVM chains first. *)
Definition readBalances (cfg : Config) (env : Env)
    (prices : gmap string PriceEntry) : M (list Reading) :=
  evmResults ← checkEVMBalances cfg env prices;
  solResult ← checkSolanaBalance cfg env prices;
  mret (evmResults ++ [solResult]).

(** Lines 206-229: the alert, then the save of the cooldown state. *)
Definition alertAndSave (cfg : Config) (env : Env)
    (state : Stored) (lowBalances : list Reading) : M unit :=
  if (0 <? length lowBalances)%nat then
    sendTelegramAlert env (alertMessage cfg env lowBalances);;
    saveState env state;;
    console_log (LogAlertsSent (length lowBalances))
  else
    saveState env state;;
    console_log LogAllOk.

(** Lines 231-243. *)
Definition writeStatus (cfg : Config) (env : Env)
    (prices : gmap string PriceEntry) (allResults : list Reading) : M unit :=
  let data := statusData cfg env prices allResults in
  call (WriteStatusFile data) (writeStatusFile env data).

(** Lines 206-243: everything after the evaluation loop. *)
Definition finishCycle (cfg : Config) (env : Env)
    (prices : gmap string PriceEntry) (allResults : list Reading)
    (state : Stored) (lowBalances : list Reading) : M unit :=
  alertAndSave cfg env state lowBalances;;
  writeStatus cfg env prices allResults.

(** Lines 179-243: what [runCheck] does once the prices are known. *)
Definition checkWithPrices (cfg : Config) (env : Env)
    (prices : gmap string PriceEntry) : M unit :=
  allResults ← readBalances cfg env prices;
  state ← loadState env;
  let now := Date_now env in
  console_log LogBalancesHeader;;
  '(state', lowBalances) ← evaluate cfg now allResults state [];
  finishCycle cfg env prices allResults state' lowBalances.

Definition runCheck (cfg : Config) (env : Env) : M unit :=
  console_log (LogRunning (Date_toISOString env));;
  fetched ← try_catch
    (prices ← getPrices cfg env;
     console_log (LogPrices prices);;
     mret (Some prices))
    (λ message,
     console_error (LogPricesFailed message);;
     mret None);
  match fetched with
  | None => mret tt
  | Some prices => checkWithPrices cfg env prices
  end.

(** ** Start-up (lines 246-260) *)

Definition startupLog (cfg : Config) : list Event :=
  [ConsoleLog LogStarting;
   ConsoleLog (LogEvmAddress (evm_address cfg));
   ConsoleLog (LogSolanaAddress (solana_address cfg));
   ConsoleLog (LogThreshold (threshold_usd cfg));
   ConsoleLog (LogInterval (check_interval_minutes cfg));
   ConsoleLog (LogCooldown (alert_cooldown_hours cfg));
   ConsoleLog LogSeparator].

(** The top-level statements: the start-up lines, a first cycle, and in
    the [then] callback of its promise, which runs only when the promise is
    fulfilled, the scheduling of the recurring cycles; [cron.schedule] is
    not guarded, so when it throws the promise of [then] is rejected and the
    last line is not logged.  [env] is the environment of the first
    cycle. *)
Definition startMonitor (cfg : Config) (env : Env) : M unit :=
  ((startupLog cfg, Normal tt) : M unit);;
  runCheck cfg env;;
  call (CronSchedule (check_interval_minutes cfg))
    (cron_schedule env (check_interval_minutes cfg));;
  console_log (LogScheduled (check_interval_minutes cfg)).

(** ** Vocabulary for the statements *)

(** The kinds of outside calls found in a trace. *)
Definition is_balance_read (e : Event) : bool :=
  match e with EvmGetBalance _ _ | SolanaGetBalance _ _ => true | _ => false end.
Definition is_state_read (e : Event) : bool :=
  match e with ReadStateFile => true | _ => false end.
Definition is_alert (e : Event) : bool :=
  match e with TelegramRequest _ => true | _ => false end.
Definition is_state_write (e : Event) : bool :=
  match e with WriteStateFile _ => true | _ => false end.
Definition is_status_write (e : Event) : bool :=
  match e with WriteStatusFile _ => true | _ => false end.
Definition is_schedule (e : Event) : bool :=
  match e with CronSchedule _ => true | _ => false end.

(** Events that neither send an alert nor write a file. *)
Definition quiet (e : Event) : bool :=
  negb (is_alert e || is_state_write e || is_status_write e).

(** The reading a chain's loop body ends with, as a function of the answer
    of that chain's own RPC call. *)
Definition evmReading (cfg : Config) (env : Env)
    (prices : gmap string PriceEntry) (entry : string * Chain.t) : Reading :=
  let c := entry.2 in
  match evm_getBalance env (Chain.rpc c) (evm_address cfg) with
  | Normal bal =>
      {| chain := Chain.name c; symbol := Chain.symbol c;
         balance := Some (etherNumber env bal);
         price := priceOf prices (Chain.coingecko_id c);
         valueUSD := Some (etherNumber env bal
                           * priceOf prices (Chain.coingecko_id c))%float;
         address := evm_address cfg; key := "evm_" +:+ entry.1;
         error := None |}
  | Throw message =>
      {| chain := Chain.name c; symbol := Chain.symbol c;
         balance := None; price := 0%float; valueUSD := None;
         address := evm_address cfg; key := "evm_" +:+ entry.1;
         error := Some message |}
  end.

(** What lines 91-93 come to for the Solana wallet: the lamports read, or
    the first failure among building the connection, building the public
    key and the read itself. *)
Definition solanaAnswer (cfg : Config) (env : Env) : Completion float :=
  match new_Connection env (Chain.rpc (solana cfg)) with
  | Throw e => Throw e
  | Normal _ =>
      match new_PublicKey env (solana_address cfg) with
      | Throw e => Throw e
      | Normal _ =>
          solana_getBalance env (Chain.rpc (solana cfg)) (solana_address cfg)
      end
  end.

(** The invariant of a reading: [valueUSD] is there exactly when [balance]
    is, and is then the product of [balance] and [price]. *)
Definition reading_ok (r : Reading) : Prop :=
  (is_Some (valueUSD r) ↔ is_Some (balance r)) ∧
  ∀ b v, balance r = Some b → valueUSD r = Some v → v = (b * price r)%float.

(** The test the loop applies to a reading against a cooldown state. *)
Definition eligible (cfg : Config) (now : float) (state : State)
    (r : Reading) : bool :=
  isLow cfg r
  && (cooldownMs cfg <? now - or_zero (lastAlerts state !! key r))%float.

(** The quantities of one cycle that got its prices: the batch of
    readings, the loaded cooldown state, and the state and alert list the
    evaluation loop ends with. *)
Definition evaluated (cfg : Config) (env : Env)
    (prices : gmap string PriceEntry) (allResults : list Reading)
    (loaded final : State) (lowBalances : list Reading) : Prop :=
  completion (readBalances cfg env prices) = Normal allResults ∧
  completion (loadState env) = Normal (Cooldowns loaded) ∧
  completion (evaluate cfg (Date_now env) allResults loaded [])
    = Normal (Cooldowns final, lowBalances).

(** The save of the state and what follows it (lines 224-243), written out:
    the state write, the summary line [l] and the status write, each
    reached only when the one before returned. *)
Definition saveThenStatus (env : Env) (state : Stored) (l : LogLine)
    (data : StatusData) : M unit :=
  match writeStateFile env state with
  | Normal _ =>
      ([WriteStateFile state; ConsoleLog l; WriteStatusFile data],
       writeStatusFile env data)
  | Throw e => ([WriteStateFile state], Throw e)
  end.

(** ** A sample deployment

    Two EVM chains and Solana, a threshold of 50 USD.  Ethereum holds
    1/64 ETH at 2048 USD, that is 32 USD; the Base RPC node times out;
    Solana holds 2 SOL at 150 USD. *)

Definition sample_ethereum : Chain.t :=
  Chain.mk "Ethereum" "ETH" "https://eth.example" "ethereum".
Definition sample_base : Chain.t :=
  Chain.mk "Base" "ETH" "https://base.example" "ethereum".
Definition sample_solana : Chain.t :=
  Chain.mk "Solana" "SOL" "https://sol.example" "solana".

Definition sample_evm_address : string :=
  "0x52908400098527886E0F7030069857D2E4169EE7".

Definition sample_solana_address : string :=
  "Vote111111111111111111111111111111111111111".

Definition sample_config (cooldown_hours : float) : Config :=
  {| threshold_usd := 50%float;
     check_interval_minutes := 30%float;
     alert_cooldown_hours := cooldown_hours;
     evm_address := sample_evm_address;
     solana_address := sample_solana_address;
     chains := [("ethereum", sample_ethereum); ("base", sample_base)];
     solana := sample_solana;
     telegram := {| bot_token := "123:abc"; chat_id := "42" |} |}.

(** The same deployment with a Solana address that is not a public key. *)
Definition sample_config_bad_key : Config :=
  {| threshold_usd := 50%float;
     check_interval_minutes := 30%float;
     alert_cooldown_hours := 6%float;
     evm_address := sample_evm_address;
     solana_address := "So1anaWa11et";
     chains := [("ethereum", sample_ethereum); ("base", sample_base)];
     solana := sample_solana;
     telegram := {| bot_token := "123:abc"; chat_id := "42" |} |}.

Definition sample_prices : gmap string PriceEntry :=
  <["ethereum" := {| usd := Some 2048%float |}]>
    (<["solana" := {| usd := Some 150%float |}]> ∅).

Definition sample_now : float := 1790000000000%float.

(** A state file written one hour before [sample_now]; its text is shown
    without the quotation marks of JSON. *)
Definition sample_state_text : string :=
  "{ lastAlerts: { evm_ethereum: 1789996400000 } }".
Definition sample_state : State :=
  {| lastAlerts := <["evm_ethereum" := 1789996400000%float]> ∅ |}.

Definition sample_env (fetch : Completion (gmap string PriceEntry))
    (file : Completion string) (tg : Completion string)
    (save status : Completion unit) : Env :=
  {| fetchJSON := λ _, fetch;
     evm_getBalance := λ rpc_url _,
       if String.eqb rpc_url "https://eth.example"
       then Normal 15625000000000000%Z else Throw "timeout";
     etherNumber := λ wei,
       if (wei =? 15625000000000000)%Z then 0.015625%float else 0%float;
     new_Connection := λ rpc_url,
       if String.prefix "http" rpc_url then Normal tt
       else Throw "Endpoint URL must start with `http:` or `https:`.";
     new_PublicKey := λ addr,
       if String.eqb addr sample_solana_address then Normal tt
       else Throw "Invalid public key input";
     solana_getBalance := λ _ _, Normal 2000000000%float;
     readStateFile := file;
     JSON_parse := λ text,
       if String.eqb text sample_state_text
       then Normal (Cooldowns sample_state)
       else if String.eqb text "{}"
       then Normal (Shapeless "{}" (λ k,
              "Cannot read properties of undefined (reading '" +:+ k +:+ "')"))
       else Throw "Unexpected end of JSON input";
     Date_now := sample_now;
     Date_toISOString := "2026-09-21T12:53:20.000Z";
     Date_toLocaleString := "21/09/2026, 13:53:20";
     telegram_request := λ _, tg;
     writeStateFile := λ _, save;
     writeStatusFile := λ _, status;
     cron_schedule := λ minutes,
       if (minutes =? 30)%float then Normal tt
       else Throw "invalid cron expression" |}.

(** The readings of the sample deployment. *)
Definition sample_eth_reading : Reading :=
  {| chain := "Ethereum"; symbol := "ETH";
     balance := Some 0.015625%float; price := 2048%float;
     valueUSD := Some 32%float;
     address := sample_evm_address; key := "evm_ethereum"; error := None |}.
Definition sample_base_reading : Reading :=
  {| chain := "Base"; symbol := "ETH";
     balance := None; price := 0%float; valueUSD := None;
     address := sample_evm_address; key := "evm_base";
     error := Some "timeout" |}.
Definition sample_sol_reading : Reading :=
  {| chain := "Solana"; symbol := "SOL";
     balance := Some 2%float; price := 150%float;
     valueUSD := Some 300%float;
     address := sample_solana_address; key := "solana"; error := None |}.
Definition sample_batch : list Reading :=
  [sample_eth_reading; sample_base_reading; sample_sol_reading].

(** The cooldown state once Ethereum has been alerted at [sample_now]. *)
Definition sample_alerted : State :=
  {| lastAlerts := <["evm_ethereum" := sample_now]> ∅ |}.

(** The sample environment when everything answers, and with one
    collaborator failing at a time. *)
Definition env_ok : Env :=
  sample_env (Normal sample_prices) (Throw "ENOENT") (Normal "{}")
    (Normal tt) (Normal tt).
Definition env_price_down : Env :=
  sample_env (Throw "ETIMEDOUT") (Throw "ENOENT") (Normal "{}")
    (Normal tt) (Normal tt).
Definition env_telegram_down : Env :=
  sample_env (Normal sample_prices) (Throw "ENOENT") (Throw "ECONNRESET")
    (Normal tt) (Normal tt).
Definition env_disk_full : Env :=
  sample_env (Normal sample_prices) (Throw "ENOENT") (Normal "{}")
    (Throw "ENOSPC") (Normal tt).
Definition env_status_denied : Env :=
  sample_env (Normal sample_prices) (Throw "ENOENT") (Normal "{}")
    (Normal tt) (Throw "EACCES").
Definition env_truncated_state : Env :=
  sample_env (Normal sample_prices) (Normal "{ lastAl") (Normal "{}")
    (Normal tt) (Normal tt).
Definition env_empty_object_state : Env :=
  sample_env (Normal sample_prices) (Normal "{}") (Normal "{}")
    (Normal tt) (Normal tt).

(** ** The rest of the program: [fetchJSON] and the price request *)

(** The identifiers the price request asks for: the [Set] built by
    [getPrices] (lines 40-42), spread into an array. *)
Definition priceIds (cfg : Config) : list string :=
  Set_add (foldl Set_add [] ((Chain.coingecko_id ∘ snd) <$> chains cfg))
    (Chain.coingecko_id (solana cfg)).

(** [fetchJSON] (lines 25-36), as a function of what [https.get] delivers:
    the chunks of the response body, appended to [data] as they arrive, or
    the request's ['error'].  [parse] is [JSON.parse]; its own message is
    dropped by the [catch].  Lengths count characters of the text, which for
    ASCII text is what [substring] counts. *)
Definition fetchJSON_body {A : Type} (parse : string → Completion A)
    (response : Completion (list string)) : Completion A :=
  match response with
  | Normal chunks =>
      let data := foldl String.append "" chunks in
      match parse data with
      | Normal value => Normal value
      | Throw _ =>
          Throw ("JSON parse error: " +:+ String.substring 0 200 data)
      end
  | Throw e => Throw e
  end.

(** The sample deployment one hour before [sample_now]. *)
Definition env_hour_before : Env :=
  {| fetchJSON := fetchJSON env_ok;
     evm_getBalance := evm_getBalance env_ok;
     etherNumber := etherNumber env_ok;
     new_Connection := new_Connection env_ok;
     new_PublicKey := new_PublicKey env_ok;
     solana_getBalance := solana_getBalance env_ok;
     readStateFile := Throw "ENOENT";
     JSON_parse := JSON_parse env_ok;
     Date_now := 1789996400000%float;
     Date_toISOString := "2026-09-21T11:53:20.000Z";
     Date_toLocaleString := "21/09/2026, 12:53:20";
     telegram_request := telegram_request env_ok;
     writeStateFile := writeStateFile env_ok;
     writeStatusFile := writeStatusFile env_ok;
     cron_schedule := cron_schedule env_ok |}.

(** The sample deployment when the price service answers with a page that
    is not JSON. *)
Definition env_price_garbled : Env :=
  sample_env
    (fetchJSON_body (λ _, Throw "Unexpected token <")
       (Normal ["<html>"; "Too many requests"; "</html>"]))
    (Throw "ENOENT") (Normal "{}") (Normal tt) (Normal tt).

(** Console lines, and the calls that leave the process. *)
Definition is_log (e : Event) : bool :=
  match e with ConsoleLog _ | ConsoleError _ => true | _ => false end.
Definition is_call (e : Event) : bool := negb (is_log e).

(** The balance reads of a cycle: one per EVM chain in the order of the
    configuration, then the Solana read, which is made only when the
    connection and the public key could be built. *)
Definition balanceCalls (cfg : Config) (env : Env) : list Event :=
  ((λ entry : string * Chain.t,
      EvmGetBalance (Chain.rpc entry.2) (evm_address cfg)) <$> chains cfg)
  ++ match new_Connection env (Chain.rpc (solana cfg)),
           new_PublicKey env (solana_address cfg) with
     | Normal _, Normal _ =>
         [SolanaGetBalance (Chain.rpc (solana cfg)) (solana_address cfg)]
     | _, _ => []
     end.


(** * Properties *)

(** ** Running computations *)

Ltac unfold_js :=
  unfold mbind, M_bind, mret, M_ret, bind, ret, throw, try_catch, call,
    console_log, console_error, trace, completion in *.

Section Run.
Context {A B : Type}.

Lemma bind_normal (m : M A) (f : A → M B) t a :
  m = (t, Normal a) →
  m ≫= f = (t ++ trace (f a), completion (f a)).
Proof. intros ->. unfold_js. by destruct (f a). Qed.

Lemma bind_throw (m : M A) (f : A → M B) t e :
  m = (t, Throw e) → m ≫= f = (t, Throw e).
Proof. by intros ->. Qed.

Lemma run_eta (m : M A) : m = (trace m, completion m).
Proof. by destruct m. Qed.

Lemma bind_trace (m : M A) (f : A → M B) :
  trace (m ≫= f)
  = trace m ++ match completion m with
               | Normal a => trace (f a)
               | Throw _ => []
               end.
Proof.
  destruct m as [t [a|e]]; unfold_js; simpl.
  - by destruct (f a).
  - by rewrite app_nil_r.
Qed.
End Run.

Lemma quiet_app t1 t2 :
  forallb quiet t1 = true → forallb quiet t2 = true →
  forallb quiet (t1 ++ t2) = true.
Proof. intros H1 H2. rewrite forallb_app, H1, H2. done. Qed.

(** ** The readers *)

Lemma loadState_run env :
  ∃ st : Stored, loadState env = ([ReadStateFile], Normal st).
Proof.
  unfold loadState. unfold_js.
  destruct (readStateFile env) as [text|e]; simpl; [|by eauto].
  destruct (JSON_parse env text) as [st|e]; simpl; eauto.
Qed.

Lemma checkEVMChain_run cfg env prices entry :
  ∃ tr, checkEVMChain cfg env prices entry
        = (tr, Normal (evmReading cfg env prices entry))
        ∧ forallb quiet tr = true.
Proof.
  destruct entry as [chainKey c]. unfold checkEVMChain, evmReading. unfold_js.
  simpl. destruct (evm_getBalance env _ _) as [bal|e]; simpl; eauto.
Qed.

Lemma checkEVMLoop_run cfg env prices entries :
  ∀ results, ∃ tr,
    checkEVMLoop cfg env prices entries results
    = (tr, Normal (results ++ (evmReading cfg env prices <$> entries)))
    ∧ forallb quiet tr = true.
Proof.
  induction entries as [|entry rest IH]; intros results; simpl.
  - exists []. by rewrite app_nil_r.
  - destruct (checkEVMChain_run cfg env prices entry) as (t1 & E1 & Q1).
    destruct (IH (results ++ [evmReading cfg env prices entry])) as (t2 & E2 & Q2).
    exists (t1 ++ t2). split; [|by apply quiet_app].
    rewrite (bind_normal _ _ _ _ E1), E2. simpl. by rewrite <- app_assoc.
Qed.

Lemma checkEVMBalances_run cfg env prices :
  ∃ tr, checkEVMBalances cfg env prices
        = (tr, Normal (evmReading cfg env prices <$> chains cfg))
        ∧ forallb quiet tr = true.
Proof. apply (checkEVMLoop_run cfg env prices (chains cfg) []). Qed.

Lemma checkSolanaBalance_run cfg env prices :
  ∃ tr sol, checkSolanaBalance cfg env prices = (tr, Normal sol)
    ∧ forallb quiet tr = true
    ∧ key sol = "solana"
    ∧ reading_ok sol
    ∧ (∀ message,
         solanaAnswer cfg env = Throw message →
         balance sol = None ∧ valueUSD sol = None ∧ price sol = 0%float
         ∧ error sol = Some message).
Proof.
  assert (Hfailed : ∀ e, reading_ok
            {| chain := Chain.name (solana cfg);
               symbol := Chain.symbol (solana cfg);
               balance := None; price := 0%float; valueUSD := None;
               address := solana_address cfg; key := "solana";
               error := Some e |}).
  { intros e. split; [by split; intros [? [=]]|]. by intros b v [=]. }
  unfold checkSolanaBalance, solanaAnswer. unfold_js.
  destruct (new_Connection env _) as [[]|e]; simpl.
  2: { eexists _, _. split; [reflexivity|]. simpl.
       split; [done|]. split; [done|]. split; [apply Hfailed|].
       by intros message [= <-]. }
  destruct (new_PublicKey env _) as [[]|e]; simpl.
  2: { eexists _, _. split; [reflexivity|]. simpl.
       split; [done|]. split; [done|]. split; [apply Hfailed|].
       by intros message [= <-]. }
  destruct (solana_getBalance env _ _) as [bal|e]; simpl;
    eexists _, _; (split; [reflexivity|]); simpl;
    (split; [done|]); (split; [done|]); split.
  - split; [done|]. intros b v; simpl. by intros [= <-] [= <-].
  - done.
  - apply Hfailed.
  - by intros message [= <-].
Qed.

Lemma evmReading_ok cfg env prices entry :
  reading_ok (evmReading cfg env prices entry).
Proof.
  unfold evmReading.
  destruct (evm_getBalance env _ _) as [bal|e]; split; simpl.
  - done.
  - by intros b v [= <-] [= <-].
  - by split; intros [? [=]].
  - by intros b v [=].
Qed.

Lemma readBalances_run cfg env prices :
  ∃ tr sol, readBalances cfg env prices
      = (tr, Normal ((evmReading cfg env prices <$> chains cfg) ++ [sol]))
    ∧ forallb quiet tr = true
    ∧ completion (checkSolanaBalance cfg env prices) = Normal sol.
Proof.
  destruct (checkEVMBalances_run cfg env prices) as (t1 & E1 & Q1).
  destruct (checkSolanaBalance_run cfg env prices) as (t2 & sol & E2 & Q2 & _).
  exists (t1 ++ t2), sol. unfold readBalances.
  rewrite (bind_normal _ _ _ _ E1), (bind_normal _ _ _ _ E2), E2. simpl.
  rewrite app_nil_r. by rewrite quiet_app.
Qed.

(** ** The evaluation loop *)

Lemma evalReading_run cfg now r (st : State) low :
  ∃ tr, evalReading cfg now r st low
    = (tr, Normal (if eligible cfg now st r
                   then (Cooldowns
                           {| lastAlerts := <[key r := now]> (lastAlerts st) |},
                         low ++ [r])
                   else (Cooldowns st, low)))
    ∧ forallb quiet tr = true.
Proof.
  unfold evalReading, eligible. unfold_js.
  destruct (isLow cfg r); simpl; [|by eauto].
  destruct (cooldownMs cfg <? _)%float; simpl; eauto.
Qed.

(** What holds of any batch, whatever its keys. *)
Lemma evaluate_run cfg now rs :
  ∀ (st : State) low0, ∃ tr (st' : State) low,
    evaluate cfg now rs st low0 = (tr, Normal (Cooldowns st', low0 ++ low))
    ∧ forallb quiet tr = true
    ∧ (∀ r, r ∈ low →
         r ∈ rs ∧ isLow cfg r = true ∧ lastAlerts st' !! key r = Some now)
    ∧ (∀ k, k ∉ key <$> low → lastAlerts st' !! k = lastAlerts st !! k)
    ∧ (∀ k, lastAlerts st' !! k = lastAlerts st !! k
            ∨ lastAlerts st' !! k = Some now).
Proof.
  induction rs as [|r0 rest IH]; intros st low0; simpl.
  - exists [], st, []. rewrite app_nil_r.
    split; [done|]. split; [done|]. split; [|by auto].
    intros r Hr. by apply elem_of_nil in Hr.
  - destruct (evalReading_run cfg now r0 st low0) as (t1 & E1 & Q1).
    rewrite (bind_normal _ _ _ _ E1).
    destruct (eligible cfg now st r0) eqn:El.
    + destruct (IH {| lastAlerts := <[key r0 := now]> (lastAlerts st) |}
                   (low0 ++ [r0]))
        as (t2 & st' & low & E2 & Q2 & Hin & Hframe & Hval).
      exists (t1 ++ t2), st', (r0 :: low). rewrite E2. simpl in *.
      split; [by rewrite <- app_assoc|]. split; [by apply quiet_app|].
      assert (Hr0 : lastAlerts st' !! key r0 = Some now).
      { destruct (Hval (key r0)) as [H|H]; [|done].
        by rewrite H, lookup_insert_eq. }
      split; [|split].
      * intros r [->|Hr]%elem_of_cons.
        -- split; [by left|]. split; [|done].
           unfold eligible in El. by apply andb_prop in El as [? _].
        -- destruct (Hin r Hr) as (? & ? & ?). split; [by right|done].
      * intros k Hk. apply not_elem_of_cons in Hk as [Hne Hk].
        rewrite (Hframe k Hk). by rewrite lookup_insert_ne.
      * intros k. destruct (Hval k) as [H|H]; [|by right].
        rewrite H. destruct (decide (key r0 = k)) as [->|Hne].
        -- right. by rewrite lookup_insert_eq.
        -- left. by rewrite lookup_insert_ne.
    + destruct (IH st low0) as (t2 & st' & low & E2 & Q2 & Hin & Hframe & Hval).
      exists (t1 ++ t2), st', low. rewrite E2. simpl.
      split; [done|]. split; [by apply quiet_app|].
      split; [|done].
      intros r Hr. destruct (Hin r Hr) as (? & ? & ?). split; [by right|done].
Qed.

Lemma eligible_insert_ne cfg now st k t r :
  k ≠ key r →
  eligible cfg now {| lastAlerts := <[k := t]> (lastAlerts st) |} r
  = eligible cfg now st r.
Proof. intros Hne. unfold eligible. simpl. by rewrite lookup_insert_ne. Qed.

Lemma key_not_elem (rs : list Reading) r :
  key r ∉ key <$> rs → r ∉ rs.
Proof. intros Hk Hr. apply Hk. by apply list_elem_of_fmap_2. Qed.

(** With pairwise distinct keys, each reading is judged against the state
    the loop started from. *)
Lemma evaluate_distinct cfg now rs :
  ∀ (st : State) low0 tr (st' : State) low,
    NoDup (key <$> rs) →
    evaluate cfg now rs st low0 = (tr, Normal (Cooldowns st', low0 ++ low)) →
    ∀ r, r ∈ rs → (r ∈ low ↔ eligible cfg now st r = true).
Proof.
  induction rs as [|r0 rest IH]; intros st low0 tr st' low Hnd Hev r Hr.
  { by apply elem_of_nil in Hr. }
  rewrite fmap_cons in Hnd. apply NoDup_cons in Hnd as [Hfresh Hnd].
  simpl in Hev.
  destruct (evalReading_run cfg now r0 st low0) as (t1 & E1 & _).
  rewrite (bind_normal _ _ _ _ E1) in Hev.
  destruct (eligible cfg now st r0) eqn:El.
  - destruct (evaluate_run cfg now rest
                {| lastAlerts := <[key r0 := now]> (lastAlerts st) |}
                (low0 ++ [r0]))
      as (t2 & st2 & low2 & E2 & _ & Hin & _).
    rewrite E2 in Hev. simpl in Hev.
    injection Hev as _ _ Hlow. rewrite <- app_assoc in Hlow.
    apply app_inv_head in Hlow. simpl in Hlow. subst low.
    apply elem_of_cons in Hr as [->|Hr].
    + rewrite El. split; [done|]. intros _. by left.
    + assert (key r0 ≠ key r).
      { intros Heq. apply Hfresh. rewrite Heq. by apply list_elem_of_fmap_2. }
      rewrite <- (eligible_insert_ne cfg now st (key r0) now r) by done.
      rewrite <- (IH _ _ _ _ _ Hnd E2 r Hr).
      rewrite elem_of_cons. split; [|by right].
      intros [->|?]; [|done]. by exfalso.
  - destruct (evaluate_run cfg now rest st low0)
      as (t2 & st2 & low2 & E2 & _ & Hin & _).
    rewrite E2 in Hev. simpl in Hev.
    injection Hev as _ _ Hlow. apply app_inv_head in Hlow. subst low.
    apply elem_of_cons in Hr as [->|Hr].
    + rewrite El. split; [|done]. intros Hr0.
      destruct (Hin _ Hr0) as (Hr0' & _). by apply key_not_elem in Hfresh.
    + by apply (IH _ _ _ _ _ Hnd E2 r Hr).
Qed.

Lemma key_inj_on (rs : list Reading) r r' :
  NoDup (key <$> rs) → r ∈ rs → r' ∈ rs → key r = key r' → r = r'.
Proof.
  induction rs as [|r0 rest IH]; intros Hnd Hr Hr' Hk.
  { by apply elem_of_nil in Hr. }
  rewrite fmap_cons in Hnd. apply NoDup_cons in Hnd as [Hfresh Hnd].
  apply elem_of_cons in Hr as [->|Hr]; apply elem_of_cons in Hr' as [->|Hr'].
  - done.
  - exfalso. apply Hfresh. rewrite Hk. by apply list_elem_of_fmap_2.
  - exfalso. apply Hfresh. rewrite <- Hk. by apply list_elem_of_fmap_2.
  - by apply IH.
Qed.

(** The keys of a cycle's batch are pairwise distinct, because the keys of
    the object [config.chains] are. *)
#[local] Instance evm_prefix_inj : Inj (=) (=) (λ k : string, "evm_" +:+ k).
Proof. intros a b. simpl. by intros [=]. Qed.

Lemma batch_keys_distinct cfg env prices sol :
  NoDup (chains cfg).*1 → key sol = "solana" →
  NoDup (key <$> ((evmReading cfg env prices <$> chains cfg) ++ [sol])).
Proof.
  intros Hnd Hsol.
  assert (Hkeys : key <$> (evmReading cfg env prices <$> chains cfg)
                  = (λ k : string, "evm_" +:+ k) <$> (chains cfg).*1).
  { rewrite <- !list_fmap_compose. apply list_fmap_ext.
    intros i [k c] _. unfold evmReading. simpl.
    by destruct (evm_getBalance env _ _). }
  rewrite fmap_app, Hkeys. simpl. rewrite Hsol.
  apply NoDup_app. split; [|split].
  - by apply (NoDup_fmap_2 _).
  - intros k [k' [-> _]]%list_elem_of_fmap [Heq|Hin]%elem_of_cons.
    + simpl in Heq. discriminate.
    + by apply elem_of_nil in Hin.
  - apply NoDup_singleton.
Qed.

(** ** The outside calls of the stages *)

Lemma filter_refines {A} (p q : A → bool) (l : list A) :
  (∀ x, p x = true → q x = true) →
  List.filter p l = List.filter p (List.filter q l).
Proof.
  intros Hpq. induction l as [|x l IH]; [done|]. simpl.
  destruct (p x) eqn:Hp.
  - rewrite (Hpq x Hp). simpl. by rewrite Hp, IH.
  - destruct (q x); simpl; [by rewrite Hp|done].
Qed.

Lemma checkEVMChain_calls cfg env prices entry :
  List.filter is_call (trace (checkEVMChain cfg env prices entry))
  = [EvmGetBalance (Chain.rpc entry.2) (evm_address cfg)].
Proof.
  destruct entry as [chainKey c]. unfold checkEVMChain. unfold_js. simpl.
  by destruct (evm_getBalance env _ _).
Qed.

Lemma checkEVMLoop_calls cfg env prices entries :
  ∀ results,
    List.filter is_call (trace (checkEVMLoop cfg env prices entries results))
    = (λ entry : string * Chain.t,
         EvmGetBalance (Chain.rpc entry.2) (evm_address cfg)) <$> entries.
Proof.
  induction entries as [|entry rest IH]; intros results; [done|]. simpl.
  destruct (checkEVMChain_run cfg env prices entry) as (t1 & E1 & _).
  pose proof (checkEVMChain_calls cfg env prices entry) as H1.
  rewrite E1 in H1. rewrite (bind_normal _ _ _ _ E1). unfold trace at 1.
  simpl in *. by rewrite List.filter_app, H1, IH.
Qed.

Lemma checkSolanaBalance_calls cfg env prices :
  List.filter is_call (trace (checkSolanaBalance cfg env prices))
  = match new_Connection env (Chain.rpc (solana cfg)),
          new_PublicKey env (solana_address cfg) with
    | Normal _, Normal _ =>
        [SolanaGetBalance (Chain.rpc (solana cfg)) (solana_address cfg)]
    | _, _ => []
    end.
Proof.
  unfold checkSolanaBalance. unfold_js.
  destruct (new_Connection env _) as [[]|e1]; simpl; [|done].
  destruct (new_PublicKey env _) as [[]|e2]; simpl; [|done].
  by destruct (solana_getBalance env _ _).
Qed.

Lemma readBalances_calls cfg env prices :
  List.filter is_call (trace (readBalances cfg env prices))
  = balanceCalls cfg env.
Proof.
  destruct (checkEVMBalances_run cfg env prices) as (t1 & E1 & _).
  destruct (checkSolanaBalance_run cfg env prices) as (t2 & sol & E2 & _).
  pose proof (checkEVMLoop_calls cfg env prices (chains cfg) []) as H1.
  pose proof (checkSolanaBalance_calls cfg env prices) as H2.
  fold (checkEVMBalances cfg env prices) in H1. rewrite E1 in H1.
  rewrite E2 in H2. unfold readBalances, balanceCalls.
  rewrite (bind_normal _ _ _ _ E1), (bind_normal _ _ _ _ E2).
  unfold trace in *. simpl in *.
  by rewrite app_nil_r, List.filter_app, H1, H2.
Qed.

Lemma evalReading_calls cfg now r (st : Stored) low :
  List.filter is_call (trace (evalReading cfg now r st low)) = [].
Proof.
  unfold evalReading. unfold_js. destruct (isLow cfg r); simpl; [|done].
  destruct st as [st|json typeError]; [|done].
  by destruct (cooldownMs cfg <? _)%float.
Qed.

Lemma evaluate_calls cfg now rs :
  ∀ (st : Stored) low,
    List.filter is_call (trace (evaluate cfg now rs st low)) = [].
Proof.
  induction rs as [|r rest IH]; intros st low; [done|]. simpl.
  rewrite bind_trace, List.filter_app, evalReading_calls. simpl.
  destruct (completion (evalReading cfg now r st low)) as [[st1 low1]|e];
    [apply IH|done].
Qed.

(** ** The cycle *)

Lemma evaluated_exists cfg env prices (st : State) :
  completion (loadState env) = Normal (Cooldowns st) →
  ∃ rs st' low, evaluated cfg env prices rs st st' low.
Proof.
  intros Hst.
  destruct (readBalances_run cfg env prices) as (t1 & sol & E1 & _).
  destruct (evaluate_run cfg (Date_now env)
              ((evmReading cfg env prices <$> chains cfg) ++ [sol]) st [])
    as (t3 & st' & low & E3 & _).
  exists ((evmReading cfg env prices <$> chains cfg) ++ [sol]), st', low.
  unfold evaluated. by rewrite E1, E3.
Qed.

(** On a value without [lastAlerts] the loop throws at the first reading
    below the threshold; when there is none it leaves the value and the
    alert list as they were. *)
Lemma evaluate_shapeless cfg now rs json typeError :
  ∀ low0, ∃ tr,
    forallb quiet tr = true
    ∧ (evaluate cfg now rs (Shapeless json typeError) low0
       = (tr, Normal (Shapeless json typeError, low0))
       ∨ ∃ e, evaluate cfg now rs (Shapeless json typeError) low0
              = (tr, Throw e)).
Proof.
  induction rs as [|r rest IH]; intros low0; simpl.
  - exists []. split; [done|]. by left.
  - destruct (isLow cfg r) eqn:Hlow.
    + exists [ConsoleLog (LogBalance true r)]. split; [done|]. right.
      exists (typeError (key r)).
      unfold evalReading. rewrite Hlow. reflexivity.
    + destruct (IH low0) as (t2 & Q2 & H2).
      exists ([ConsoleLog (LogBalance false r)] ++ t2). split; [done|].
      assert (E1 : evalReading cfg now r (Shapeless json typeError) low0
                   = ([ConsoleLog (LogBalance false r)],
                      Normal (Shapeless json typeError, low0))).
      { unfold evalReading. rewrite Hlow. reflexivity. }
      rewrite (bind_normal _ _ _ _ E1).
      destruct H2 as [->|(e & ->)]; [by left|right; by exists e].
Qed.

(** How the loop can end, for any loaded value. *)
Lemma evaluate_outcome cfg now rs (loaded : Stored) :
  forallb quiet (trace (evaluate cfg now rs loaded [])) = true
  ∧ match completion (evaluate cfg now rs loaded []) with
    | Normal (final, low) =>
        (∃ st st' : State, loaded = Cooldowns st ∧ final = Cooldowns st')
        ∨ (∃ json typeError, loaded = Shapeless json typeError
                             ∧ final = loaded ∧ low = [])
    | Throw _ => ∃ json typeError, loaded = Shapeless json typeError
    end.
Proof.
  destruct loaded as [st|json typeError].
  - destruct (evaluate_run cfg now rs st []) as (tr & st' & low & -> & Q & _).
    split; [done|]. left. by exists st, st'.
  - destruct (evaluate_shapeless cfg now rs json typeError [])
      as (tr & Q & [->|(e & ->)]); (split; [done|]); simpl; eauto.
    right. by exists json, typeError.
Qed.

Lemma evaluated_distinct cfg env prices rs st st' low :
  evaluated cfg env prices rs st st' low →
  NoDup (chains cfg).*1 → NoDup (key <$> rs).
Proof.
  intros (Hrs & _ & _) Hnd.
  destruct (readBalances_run cfg env prices) as (t1 & sol & E1 & _ & Hsol).
  rewrite E1 in Hrs. injection Hrs as <-.
  destruct (checkSolanaBalance_run cfg env prices) as (t & sol' & E & _ & Hk & _).
  rewrite E in Hsol. injection Hsol as <-.
  by apply batch_keys_distinct.
Qed.

(** The loop's facts, for the quantities of a cycle. *)
Lemma evaluated_run cfg env prices rs st st' low :
  evaluated cfg env prices rs st st' low →
  ∃ tr, evaluate cfg (Date_now env) rs st []
        = (tr, Normal (Cooldowns st', low))
    ∧ forallb quiet tr = true
    ∧ (∀ r, r ∈ low → r ∈ rs ∧ isLow cfg r = true
                      ∧ lastAlerts st' !! key r = Some (Date_now env))
    ∧ (∀ k, k ∉ key <$> low → lastAlerts st' !! k = lastAlerts st !! k)
    ∧ (∀ k, lastAlerts st' !! k = lastAlerts st !! k
            ∨ lastAlerts st' !! k = Some (Date_now env)).
Proof.
  intros (_ & _ & Hev).
  destruct (evaluate_run cfg (Date_now env) rs st [])
    as (tr & st2 & low2 & E & Q & H).
  rewrite E in Hev. injection Hev as <- <-. by exists tr.
Qed.

(** A cycle that got its prices, stage by stage: the balance reads, the
    load of the state, the loop, and, when the loop returns, the rest. *)
Lemma checkWithPrices_stages cfg env prices :
  ∃ rs loaded,
    completion (readBalances cfg env prices) = Normal rs
    ∧ completion (loadState env) = Normal loaded
    ∧ checkWithPrices cfg env prices
      = match completion (evaluate cfg (Date_now env) rs loaded []) with
        | Normal (final, low) =>
            (trace (readBalances cfg env prices)
             ++ [ReadStateFile; ConsoleLog LogBalancesHeader]
             ++ trace (evaluate cfg (Date_now env) rs loaded [])
             ++ trace (finishCycle cfg env prices rs final low),
             completion (finishCycle cfg env prices rs final low))
        | Throw e =>
            (trace (readBalances cfg env prices)
             ++ [ReadStateFile; ConsoleLog LogBalancesHeader]
             ++ trace (evaluate cfg (Date_now env) rs loaded []),
             Throw e)
        end.
Proof.
  destruct (readBalances_run cfg env prices) as (t1 & sol & E1 & _).
  destruct (loadState_run env) as (loaded & E2).
  exists ((evmReading cfg env prices <$> chains cfg) ++ [sol]), loaded.
  rewrite E1, E2. split; [done|]. split; [done|].
  unfold checkWithPrices.
  rewrite (bind_normal _ _ _ _ E1), (bind_normal _ _ _ _ E2).
  rewrite (bind_normal _ _ _ _ (eq_refl : console_log LogBalancesHeader = _)).
  change (trace (?t, ?c)) with t. simpl.
  destruct (evaluate cfg (Date_now env) _ loaded []) as [t3 [[final low]|e]].
  - rewrite (bind_normal _ _ _ _ eq_refl). simpl. done.
  - rewrite (bind_throw _ _ _ _ eq_refl). simpl. done.
Qed.

(** Up to the end of the evaluation loop the cycle only logs and reads. *)
Lemma checkWithPrices_run cfg env prices rs st st' low :
  evaluated cfg env prices rs st st' low →
  ∃ pre, forallb quiet pre = true
    ∧ checkWithPrices cfg env prices
      = (pre ++ trace (finishCycle cfg env prices rs st' low),
         completion (finishCycle cfg env prices rs st' low)).
Proof.
  intros Hev. destruct (evaluated_run _ _ _ _ _ _ _ Hev) as (t3 & E3 & Q3 & _).
  destruct Hev as (Hrs & Hst & _).
  destruct (readBalances_run cfg env prices) as (t1 & sol & E1 & Q1 & _).
  rewrite E1 in Hrs. injection Hrs as <-.
  destruct (loadState_run env) as (st0 & E2).
  rewrite E2 in Hst. injection Hst as ->.
  exists (t1 ++ [ReadStateFile] ++ [ConsoleLog LogBalancesHeader] ++ t3).
  split.
  - repeat apply quiet_app; done.
  - unfold checkWithPrices.
    rewrite (bind_normal _ _ _ _ E1), (bind_normal _ _ _ _ E2).
    rewrite (bind_normal _ _ _ _ (eq_refl : console_log LogBalancesHeader = _)).
    rewrite (bind_normal _ _ _ _ E3). simpl.
    by rewrite <- !app_assoc.
Qed.

Lemma getPrices_run cfg env :
  getPrices cfg env
  = ([HttpsGet (pricesUrl cfg)], fetchJSON env (pricesUrl cfg)).
Proof.
  unfold getPrices. unfold_js. by destruct (fetchJSON env _).
Qed.

Lemma runCheck_unpriced cfg env message :
  fetchJSON env (pricesUrl cfg) = Throw message →
  runCheck cfg env
  = ([ConsoleLog (LogRunning (Date_toISOString env));
      HttpsGet (pricesUrl cfg);
      ConsoleError (LogPricesFailed message)],
     Normal tt).
Proof. intros Hp. unfold runCheck. by rewrite getPrices_run, Hp. Qed.

Lemma runCheck_priced cfg env prices :
  fetchJSON env (pricesUrl cfg) = Normal prices →
  runCheck cfg env
  = ([ConsoleLog (LogRunning (Date_toISOString env));
      HttpsGet (pricesUrl cfg); ConsoleLog (LogPrices prices)]
     ++ trace (checkWithPrices cfg env prices),
     completion (checkWithPrices cfg env prices)).
Proof.
  intros Hp. unfold runCheck. rewrite getPrices_run, Hp. unfold_js. simpl.
  by destruct (checkWithPrices cfg env prices).
Qed.

Lemma runCheck_run cfg env prices rs st st' low :
  fetchJSON env (pricesUrl cfg) = Normal prices →
  evaluated cfg env prices rs st st' low →
  ∃ pre, forallb quiet pre = true
    ∧ runCheck cfg env
      = (pre ++ trace (finishCycle cfg env prices rs st' low),
         completion (finishCycle cfg env prices rs st' low)).
Proof.
  intros Hp Hev. destruct (checkWithPrices_run _ _ _ _ _ _ _ Hev) as (pre & Q & E).
  exists ([ConsoleLog (LogRunning (Date_toISOString env));
           HttpsGet (pricesUrl cfg); ConsoleLog (LogPrices prices)] ++ pre).
  split; [done|].
  rewrite (runCheck_priced _ _ _ Hp), E. simpl. done.
Qed.

(** Every way a cycle that got its prices can go on: the loop throws on a
    value without [lastAlerts]; or it returns and the rest of the cycle
    follows, from a state with cooldowns or from a value without
    [lastAlerts] left as it was, with nothing to alert. *)
Lemma runCheck_cases cfg env prices :
  fetchJSON env (pricesUrl cfg) = Normal prices →
  ∃ pre rs loaded,
    forallb quiet pre = true
    ∧ List.filter is_call pre
      = [HttpsGet (pricesUrl cfg)] ++ balanceCalls cfg env ++ [ReadStateFile]
    ∧ completion (readBalances cfg env prices) = Normal rs
    ∧ completion (loadState env) = Normal loaded
    ∧ ((∃ e json typeError,
          loaded = Shapeless json typeError
          ∧ runCheck cfg env = (pre, Throw e))
       ∨ (∃ final low,
            runCheck cfg env
            = (pre ++ trace (finishCycle cfg env prices rs final low),
               completion (finishCycle cfg env prices rs final low))
            ∧ ((∃ st st' : State,
                  loaded = Cooldowns st ∧ final = Cooldowns st'
                  ∧ evaluated cfg env prices rs st st' low)
               ∨ (∃ json typeError,
                    loaded = Shapeless json typeError
                    ∧ final = loaded ∧ low = [])))).
Proof.
  intros Hp. rewrite (runCheck_priced _ _ _ Hp).
  destruct (checkWithPrices_stages cfg env prices) as (rs & loaded & Hrs & Hst & E).
  destruct (evaluate_outcome cfg (Date_now env) rs loaded) as [Q3 Hout].
  pose proof (evaluate_calls cfg (Date_now env) rs loaded []) as C3.
  pose proof (readBalances_calls cfg env prices) as C1.
  destruct (readBalances_run cfg env prices) as (t1 & sol & E1 & Q1 & _).
  assert (Q1' : forallb quiet (trace (readBalances cfg env prices)) = true)
    by (by rewrite E1).
  set (pre := [ConsoleLog (LogRunning (Date_toISOString env));
               HttpsGet (pricesUrl cfg); ConsoleLog (LogPrices prices)]
              ++ trace (readBalances cfg env prices)
              ++ [ReadStateFile; ConsoleLog LogBalancesHeader]
              ++ trace (evaluate cfg (Date_now env) rs loaded [])).
  exists pre, rs, loaded.
  split; [subst pre; repeat apply quiet_app; done|].
  split; [subst pre; rewrite !List.filter_app, C1, C3; done|].
  split; [done|]. split; [done|].
  rewrite E. clear E.
  destruct (completion (evaluate cfg (Date_now env) rs loaded []))
    as [[final low]|e] eqn:Hc.
  - right. exists final, low. split.
    { change (trace (?t, ?c)) with t. change (completion (?t, ?c)) with c.
      subst pre. rewrite <- ?app_assoc. done. }
    destruct Hout as [(st & st' & -> & ->)|(json & f & -> & -> & ->)].
    + left. exists st, st'. split; [done|]. split; [done|].
      unfold evaluated. by rewrite Hrs, Hst, Hc.
    + right. by exists json, f.
  - left. destruct Hout as (json & f & ->). exists e, json, f.
    split; [done|]. subst pre. rewrite <- ?app_assoc. done.
Qed.

Lemma quiet_no_alert t :
  forallb quiet t = true → List.filter is_alert t = [].
Proof.
  induction t as [|e t IH]; [done|]. simpl. intros [He Ht]%andb_prop.
  rewrite (IH Ht). unfold quiet in He.
  by destruct (is_alert e).
Qed.

Lemma quiet_no_state_write t s :
  forallb quiet t = true → WriteStateFile s ∉ t.
Proof.
  intros Q Hin. rewrite forallb_forall in Q.
  apply list_elem_of_In in Hin. by apply Q in Hin.
Qed.

(** The first cycle decides whether the recurring cycles get scheduled. *)
Lemma startMonitor_fulfilled cfg env :
  completion (runCheck cfg env) = Normal tt →
  startMonitor cfg env
  = match cron_schedule env (check_interval_minutes cfg) with
    | Normal _ =>
        (startupLog cfg ++ trace (runCheck cfg env)
           ++ [CronSchedule (check_interval_minutes cfg);
               ConsoleLog (LogScheduled (check_interval_minutes cfg))],
         Normal tt)
    | Throw e =>
        (startupLog cfg ++ trace (runCheck cfg env)
           ++ [CronSchedule (check_interval_minutes cfg)],
         Throw e)
    end.
Proof.
  intros H. unfold startMonitor. rewrite (run_eta (runCheck cfg env)), H.
  unfold_js. by destruct (cron_schedule env _) as [[]|e].
Qed.

Lemma startMonitor_rejected cfg env e :
  completion (runCheck cfg env) = Throw e →
  startMonitor cfg env = (startupLog cfg ++ trace (runCheck cfg env), Throw e).
Proof.
  intros H. unfold startMonitor. rewrite (run_eta (runCheck cfg env)), H.
  reflexivity.
Qed.

(** ** Sample runs *)

(** Scenario A: 32 USD against a threshold of 50, six hours of cooldown, no
    state file: Ethereum is alerted and stamped with the current time. *)
Lemma sample_evaluated fetch tg save status :
  evaluated (sample_config 6)
    (sample_env fetch (Throw "ENOENT") tg save status)
    sample_prices sample_batch emptyState sample_alerted [sample_eth_reading].
Proof. repeat split; vm_compute; reflexivity. Qed.

(** Scenario B: the same wallet one hour after an alert is suppressed. *)
Lemma sample_suppressed fetch tg save status :
  evaluated (sample_config 6)
    (sample_env fetch (Normal sample_state_text) tg save status)
    sample_prices sample_batch sample_state sample_state [].
Proof. repeat split; vm_compute; reflexivity. Qed.

Lemma sample_chains_distinct h : NoDup (chains (sample_config h)).*1.
Proof. simpl. apply (bool_decide_unpack _). by vm_compute. Qed.

(** ** Price fetch failure *)

(** C3.  When the price fetch fails, the cycle consists of the start line,
    the price request and the error line, and then returns normally: no
    balance is read, the state file is neither read nor written, no alert is
    sent and no status is written.  When this is the cycle run at start-up,
    start-up goes on to call [cron.schedule], and it completes or fails as
    that call does: the failed price fetch plays no part in it. *)
Theorem price_failure_aborts_cycle cfg env message :
  fetchJSON env (pricesUrl cfg) = Throw message →
  runCheck cfg env
  = ([ConsoleLog (LogRunning (Date_toISOString env));
      HttpsGet (pricesUrl cfg);
      ConsoleError (LogPricesFailed message)],
     Normal tt)
  ∧ existsb (λ e, is_balance_read e || is_state_read e || is_alert e
                  || is_state_write e || is_status_write e)
      (trace (runCheck cfg env)) = false
  ∧ CronSchedule (check_interval_minutes cfg) ∈ trace (startMonitor cfg env)
  ∧ completion (startMonitor cfg env)
    = cron_schedule env (check_interval_minutes cfg)
  ∧ (cron_schedule env (check_interval_minutes cfg) = Normal tt →
     last (trace (startMonitor cfg env))
     = Some (ConsoleLog (LogScheduled (check_interval_minutes cfg)))).
Proof.
  intros Hp. pose proof (runCheck_unpriced cfg env message Hp) as E.
  rewrite startMonitor_fulfilled by (by rewrite E).
  rewrite E. split; [done|]. split; [done|].
  destruct (cron_schedule env (check_interval_minutes cfg)) as [[]|e];
    simpl; (split; [|split; [done|]]).
  - rewrite !elem_of_cons. do 10 right. by left.
  - done.
  - rewrite !elem_of_cons. do 10 right. by left.
  - by intros [=].
Qed.

Lemma price_failure_aborts_cycle_witness :
  fetchJSON env_price_down (pricesUrl (sample_config 6)) = Throw "ETIMEDOUT"
  ∧ completion (runCheck (sample_config 6) env_price_down) = Normal tt
  ∧ length (trace (runCheck (sample_config 6) env_price_down)) = 3.
Proof.
  split; [reflexivity|].
  destruct (price_failure_aborts_cycle (sample_config 6) env_price_down
              "ETIMEDOUT") as [E _]; [reflexivity|].
  rewrite E. split; reflexivity.
Defined.

(** ** Loading the cooldown state *)

(** C9, for a record that is missing, unreadable or not valid JSON.  When
    the state file cannot be read, or its text is rejected by [JSON.parse],
    [loadState] does not throw and returns the object with an empty
    [lastAlerts].  The cycle then proceeds as if no alert had ever been
    sent: the loop runs to its end from that empty state and, with the keys
    of [config.chains] distinct, judges every reading against a last alert
    time of 0. *)
Theorem loadState_recovers env :
  (∃ message, readStateFile env = Throw message)
  ∨ (∃ text message, readStateFile env = Normal text
                     ∧ JSON_parse env text = Throw message) →
  loadState env = ([ReadStateFile], Normal (Cooldowns emptyState))
  ∧ ∀ cfg prices,
      ∃ rs st' low,
        evaluated cfg env prices rs emptyState st' low
        ∧ (NoDup (chains cfg).*1 →
           ∀ r, r ∈ rs →
             (r ∈ low ↔
                isLow cfg r = true
                ∧ (cooldownMs cfg <? Date_now env - 0)%float = true)).
Proof.
  intros H.
  assert (E : loadState env = ([ReadStateFile], Normal (Cooldowns emptyState))).
  { unfold loadState. unfold_js.
    destruct H as [(m & ->)|(text & m & -> & H)]; simpl; [done|].
    by rewrite H. }
  split; [done|]. intros cfg prices.
  destruct (evaluated_exists cfg env prices emptyState) as (rs & st' & low & Hev).
  { by rewrite E. }
  exists rs, st', low. split; [done|]. intros Hnd r Hr.
  pose proof (evaluated_distinct _ _ _ _ _ _ _ Hev Hnd) as Hkeys.
  destruct (evaluated_run _ _ _ _ _ _ _ Hev) as (tr & Eev & _).
  pose proof (evaluate_distinct cfg (Date_now env) rs emptyState [] tr st' low
                Hkeys Eev r Hr) as Hiff.
  unfold eligible in Hiff. by rewrite andb_true_iff in Hiff.
Qed.

Lemma loadState_recovers_witness :
  loadState env_truncated_state
  = ([ReadStateFile], Normal (Cooldowns emptyState)).
Proof.
  destruct (loadState_recovers env_truncated_state) as [H _]; [|exact H].
  right. exists "{ lastAl", "Unexpected end of JSON input".
  split; reflexivity.
Defined.

(** C9 as stated fails for a record that is damaged but still valid JSON:
    with the empty object in the state file, [loadState] returns that
    object, not the object with an empty [lastAlerts]; the loop then throws
    at Ethereum, the first reading below the threshold, and the cycle ends
    with that error, without alert, state write or status write. *)
Lemma wrong_shape_record_is_returned :
  readStateFile env_empty_object_state = Normal "{}"
  ∧ (∃ typeError,
       loadState env_empty_object_state
       = ([ReadStateFile], Normal (Shapeless "{}" typeError)))
  ∧ completion (loadState env_empty_object_state)
    ≠ Normal (Cooldowns emptyState)
  ∧ completion (runCheck (sample_config 6) env_empty_object_state)
    = Throw "Cannot read properties of undefined (reading 'evm_ethereum')"
  ∧ existsb (λ e, is_alert e || is_state_write e || is_status_write e)
      (trace (runCheck (sample_config 6) env_empty_object_state)) = false.
Proof.
  split; [reflexivity|]. split; [by eexists|].
  split; [by intros [=]|]. split; vm_compute; reflexivity.
Qed.

(** ** Balance readers *)

(** C4.  Neither reader throws.  A chain whose RPC call fails gets a reading
    with [balance] and [valueUSD] null, [price] 0 and the error's message;
    the reading of a chain depends on the answer of that chain's own call
    only, so it is the same in any environment where that answer is the
    same, whatever happens to the other chains.  For Solana the failure may
    be that of building the connection, of building the public key, or of
    the read itself ([solanaAnswer]). *)
Theorem balance_failure_isolated cfg env prices :
  (∃ tr evm,
     checkEVMBalances cfg env prices = (tr, Normal evm)
     ∧ length evm = length (chains cfg)
     ∧ (∀ i chainKey c message,
          chains cfg !! i = Some (chainKey, c) →
          evm_getBalance env (Chain.rpc c) (evm_address cfg) = Throw message →
          ∃ r, evm !! i = Some r ∧ key r = "evm_" +:+ chainKey
               ∧ balance r = None ∧ valueUSD r = None
               ∧ price r = 0%float ∧ error r = Some message)
     ∧ (∀ env' j entry,
          chains cfg !! j = Some entry →
          evm_getBalance env' (Chain.rpc entry.2) (evm_address cfg)
            = evm_getBalance env (Chain.rpc entry.2) (evm_address cfg) →
          etherNumber env' = etherNumber env →
          ∃ tr' evm', checkEVMBalances cfg env' prices = (tr', Normal evm')
                      ∧ evm' !! j = evm !! j)
     ∧ ∃ tr' sol,
         checkSolanaBalance cfg env prices = (tr', Normal sol)
         ∧ readBalances cfg env prices = (tr ++ tr', Normal (evm ++ [sol]))
         ∧ (∀ message,
              solanaAnswer cfg env = Throw message →
              balance sol = None ∧ valueUSD sol = None
              ∧ price sol = 0%float ∧ error sol = Some message)).
Proof.
  destruct (checkEVMBalances_run cfg env prices) as (tr & E & _).
  exists tr, (evmReading cfg env prices <$> chains cfg).
  split; [done|]. split; [by rewrite length_fmap|]. split; [|split].
  - intros i chainKey c message Hi Hfail.
    exists (evmReading cfg env prices (chainKey, c)).
    rewrite list_lookup_fmap, Hi. split; [done|].
    unfold evmReading. simpl. by rewrite Hfail.
  - intros env' j entry Hj Hsame Hnum.
    destruct (checkEVMBalances_run cfg env' prices) as (tr' & E' & _).
    exists tr', (evmReading cfg env' prices <$> chains cfg).
    split; [done|]. rewrite !list_lookup_fmap, Hj. simpl. f_equal.
    unfold evmReading. by rewrite Hsame, Hnum.
  - destruct (checkSolanaBalance_run cfg env prices)
      as (tr' & sol & E' & _ & _ & _ & Hfail).
    exists tr', sol. split; [done|]. split; [|done].
    unfold readBalances.
    rewrite (bind_normal _ _ _ _ E), (bind_normal _ _ _ _ E'). simpl.
    by rewrite app_nil_r.
Qed.

Lemma balance_failure_isolated_witness :
  ∃ tr evm r,
    checkEVMBalances (sample_config 6) env_ok sample_prices = (tr, Normal evm)
    ∧ evm !! 1 = Some r
    ∧ balance r = None ∧ valueUSD r = None ∧ error r = Some "timeout".
Proof.
  destruct (balance_failure_isolated (sample_config 6) env_ok sample_prices)
    as (tr & evm & E & _ & Hfail & _).
  destruct (Hfail 1 "base" sample_base "timeout" eq_refl eq_refl)
    as (r & Hr & _ & Hb & Hv & _ & He).
  by exists tr, evm, r.
Defined.

(** C6.  Every reading of a cycle has [valueUSD] non-null exactly when
    [balance] is non-null, and then [valueUSD] is [balance * price]. *)
Theorem readings_invariant cfg env prices :
  ∃ tr rs, readBalances cfg env prices = (tr, Normal rs)
           ∧ Forall reading_ok rs.
Proof.
  destruct (readBalances_run cfg env prices) as (tr & sol & E & _ & Hsol).
  exists tr, ((evmReading cfg env prices <$> chains cfg) ++ [sol]).
  split; [done|]. apply Forall_app. split.
  - apply Forall_fmap, Forall_forall. intros entry _. apply evmReading_ok.
  - destruct (checkSolanaBalance_run cfg env prices) as (t & sol' & E' & _ & _ & Hok & _).
    rewrite E' in Hsol. injection Hsol as <-. by apply Forall_singleton.
Qed.

(** ** After the evaluation loop *)

Section Finish.
Variables (cfg : Config) (env : Env) (prices : gmap string PriceEntry).
Variables (rs : list Reading) (st' : Stored) (low : list Reading).

Let msg := alertMessage cfg env low.
Let data := statusData cfg env prices rs.

Lemma finishCycle_nothing_low :
  low = [] →
  finishCycle cfg env prices rs st' low = saveThenStatus env st' LogAllOk data.
Proof.
  intros ->. unfold finishCycle, alertAndSave, saveState, writeStatus,
    saveThenStatus. unfold_js. simpl.
  destruct (writeStateFile env st') as [[]|e]; simpl; [|done].
  by destruct (writeStatusFile env _).
Qed.

Lemma finishCycle_send_fails e :
  low ≠ [] → telegram_request env msg = Throw e →
  finishCycle cfg env prices rs st' low
  = ([TelegramRequest msg; ConsoleError (LogTelegramError e)], Throw e).
Proof.
  intros Hlow Htg. unfold finishCycle, alertAndSave, sendTelegramAlert.
  destruct low as [|r l]; [done|]. unfold_js. simpl.
  fold msg. by rewrite Htg.
Qed.

Lemma finishCycle_sent body :
  low ≠ [] → telegram_request env msg = Normal body →
  finishCycle cfg env prices rs st' low
  = ([TelegramRequest msg;
      ConsoleLog (LogTelegramResponse (String.substring 0 200 body))]
     ++ trace (saveThenStatus env st' (LogAlertsSent (length low)) data),
     completion (saveThenStatus env st' (LogAlertsSent (length low)) data)).
Proof.
  intros Hlow Htg.
  unfold finishCycle, alertAndSave, sendTelegramAlert, saveState,
    writeStatus, saveThenStatus.
  destruct low as [|r l]; [done|]. unfold_js. simpl.
  fold msg. rewrite Htg. simpl.
  destruct (writeStateFile env st') as [[]|e]; simpl; [|done].
  by destruct (writeStatusFile env _).
Qed.

(** The only state ever handed to [saveState] is the loop's. *)
Lemma finishCycle_state_write s :
  WriteStateFile s ∈ trace (finishCycle cfg env prices rs st' low) → s = st'.
Proof.
  destruct (decide (low = [])) as [Hlow|Hlow].
  - rewrite (finishCycle_nothing_low Hlow). unfold saveThenStatus.
    destruct (writeStateFile env st'); simpl;
      rewrite ?elem_of_cons, elem_of_nil; intros H;
      by repeat (destruct H as [[=]|H]).
  - destruct (telegram_request env msg) as [body|e] eqn:Htg.
    + rewrite (finishCycle_sent body Hlow Htg). unfold saveThenStatus.
      destruct (writeStateFile env st'); simpl;
        rewrite ?elem_of_cons, elem_of_nil; intros H;
        by repeat (destruct H as [[=]|H]).
    + rewrite (finishCycle_send_fails e Hlow Htg). simpl.
      rewrite ?elem_of_cons, elem_of_nil. intros H.
      by repeat (destruct H as [[=]|H]).
Qed.
End Finish.

Lemma quiet_no_state_write_b t :
  forallb quiet t = true → existsb is_state_write t = false.
Proof.
  induction t as [|e t IH]; [done|]. simpl. intros [He Ht]%andb_prop.
  rewrite (IH Ht). unfold quiet in He.
  destruct (is_alert e), (is_state_write e); done.
Qed.

Lemma quiet_no_status_write_b t :
  forallb quiet t = true → existsb is_status_write t = false.
Proof.
  induction t as [|e t IH]; [done|]. simpl. intros [He Ht]%andb_prop.
  rewrite (IH Ht). unfold quiet in He.
  destruct (is_alert e), (is_state_write e), (is_status_write e); done.
Qed.

(** A reading left off the alert list shares its key with no reading on it. *)
Lemma key_off_alert_list cfg env prices rs st st' low r :
  NoDup (chains cfg).*1 →
  evaluated cfg env prices rs st st' low →
  r ∈ rs → r ∉ low → key r ∉ key <$> low.
Proof.
  intros Hnd Hev Hr Hout (r' & Hk & Hr')%list_elem_of_fmap.
  destruct (evaluated_run _ _ _ _ _ _ _ Hev) as (_ & _ & _ & Hin & _).
  destruct (Hin r' Hr') as (Hrs' & _).
  assert (r = r') as <-; [|done].
  eapply key_inj_on; eauto using evaluated_distinct.
Qed.

(** ** Eligibility *)

(** C2, as the loop computes it.  With the keys of [config.chains]
    distinct, a reading of the batch is put on the alert list exactly when
    its [valueUSD] is non-null and below the threshold and [now] minus the
    last alert time exceeds the cooldown, where the last alert time is the
    timestamp stored under its key in the loaded state, and 0 when there is
    none (or when it is falsy).  For a key that was never alerted the test
    is therefore [cooldownMs < now - 0]. *)
Theorem alert_list_characterised cfg env prices rs st st' low :
  NoDup (chains cfg).*1 →
  evaluated cfg env prices rs st st' low →
  ∀ r, r ∈ rs →
    (r ∈ low ↔
       isLow cfg r = true
       ∧ (cooldownMs cfg
          <? Date_now env - or_zero (lastAlerts st !! key r))%float = true)
    ∧ (lastAlerts st !! key r = None →
       (r ∈ low ↔
          isLow cfg r = true
          ∧ (cooldownMs cfg <? Date_now env - 0)%float = true)).
Proof.
  intros Hnd Hev r Hr.
  pose proof (evaluated_distinct _ _ _ _ _ _ _ Hev Hnd) as Hkeys.
  destruct (evaluated_run _ _ _ _ _ _ _ Hev) as (tr & E & _).
  pose proof (evaluate_distinct cfg (Date_now env) rs st [] tr st' low
                Hkeys E r Hr) as Hiff.
  unfold eligible in Hiff. rewrite andb_true_iff in Hiff.
  split; [done|]. intros Hnone. by rewrite Hnone in Hiff.
Qed.

Lemma alert_list_characterised_witness :
  sample_eth_reading ∈ [sample_eth_reading] ↔
    isLow (sample_config 6) sample_eth_reading = true
    ∧ (cooldownMs (sample_config 6)
       <? Date_now env_ok
          - or_zero (lastAlerts emptyState !! key sample_eth_reading))%float
      = true.
Proof.
  destruct (alert_list_characterised (sample_config 6) env_ok sample_prices
              sample_batch emptyState sample_alerted [sample_eth_reading]
              (sample_chains_distinct _) (sample_evaluated _ _ _ _)
              sample_eth_reading) as [H _]; [by left|exact H].
Defined.

(** C2 as stated fails: with a cooldown of 1,000,000 hours (3.6e12 ms, more
    than the 1.79e12 ms of the clock), Ethereum is below the threshold and
    its key is absent from the loaded state, which is empty, yet the loop
    leaves it off the alert list. *)
Lemma never_alerted_not_always_eligible :
  evaluated (sample_config 1000000) env_ok sample_prices
    sample_batch emptyState emptyState []
  ∧ sample_eth_reading ∈ sample_batch
  ∧ isLow (sample_config 1000000) sample_eth_reading = true
  ∧ lastAlerts emptyState !! key sample_eth_reading = None
  ∧ sample_eth_reading ∉ ([] : list Reading).
Proof.
  split; [repeat split; vm_compute; reflexivity|].
  split; [by left|]. split; [by vm_compute|]. split; [done|].
  apply not_elem_of_nil.
Qed.

(** ** The cooldown state after a batch *)

(** C5.  With the keys of [config.chains] distinct: a reading put on the
    alert list has its key stamped with the batch's [now]; any other
    reading of the batch has its entry as it was in the loaded state. *)
Theorem cooldown_updated_exactly cfg env prices rs st st' low :
  NoDup (chains cfg).*1 →
  evaluated cfg env prices rs st st' low →
  ∀ r, r ∈ rs →
    (r ∈ low → lastAlerts st' !! key r = Some (Date_now env))
    ∧ (r ∉ low → lastAlerts st' !! key r = lastAlerts st !! key r).
Proof.
  intros Hnd Hev r Hr.
  destruct (evaluated_run _ _ _ _ _ _ _ Hev) as (_ & _ & _ & Hin & Hframe & _).
  split.
  - intros Hlow. by destruct (Hin r Hlow) as (_ & _ & Hnow).
  - intros Hout. apply Hframe. eauto using key_off_alert_list.
Qed.

Lemma cooldown_updated_exactly_witness :
  (sample_eth_reading ∈ [sample_eth_reading] →
   lastAlerts sample_alerted !! "evm_ethereum" = Some sample_now)
  ∧ (sample_eth_reading ∉ [sample_eth_reading] →
     lastAlerts sample_alerted !! "evm_ethereum"
     = lastAlerts emptyState !! "evm_ethereum").
Proof.
  apply (cooldown_updated_exactly (sample_config 6) env_ok sample_prices
           sample_batch emptyState sample_alerted [sample_eth_reading]).
  - apply sample_chains_distinct.
  - apply sample_evaluated.
  - by left.
Defined.

(** C8.  A reading whose [valueUSD] is null leaves the cooldown state and
    the alert list as they are when the loop processes it, whatever the
    threshold and the state; it is never on the alert list of a cycle, and
    its key's entry after the cycle is the loaded one. *)
Theorem failed_reading_never_alerts cfg r :
  valueUSD r = None →
  (∀ now state lowBalances,
     completion (evalReading cfg now r state lowBalances)
     = Normal (state, lowBalances))
  ∧ (∀ env prices rs st st' low,
       evaluated cfg env prices rs st st' low →
       (r ∉ low)
       ∧ (NoDup (chains cfg).*1 → r ∈ rs →
          lastAlerts st' !! key r = lastAlerts st !! key r)).
Proof.
  intros Hnull.
  assert (Hlow : isLow cfg r = false) by (unfold isLow; by rewrite Hnull).
  split.
  - intros now state lowBalances.
    unfold evalReading. by rewrite Hlow.
  - intros env prices rs st st' low Hev.
    destruct (evaluated_run _ _ _ _ _ _ _ Hev) as (_ & _ & _ & Hin & Hframe & _).
    assert (Hout : r ∉ low).
    { intros Hr. destruct (Hin r Hr) as (_ & Hl & _). congruence. }
    split; [done|]. intros Hnd Hr. apply Hframe.
    eauto using key_off_alert_list.
Qed.

Lemma failed_reading_never_alerts_witness :
  valueUSD sample_base_reading = None
  ∧ completion (evalReading (sample_config 6) sample_now sample_base_reading
                  sample_state [])
    = Normal (Cooldowns sample_state, [])
  ∧ sample_base_reading ∉ [sample_eth_reading].
Proof.
  split; [reflexivity|].
  destruct (failed_reading_never_alerts (sample_config 6) sample_base_reading
              eq_refl) as [Hstep Hcycle].
  split; [apply Hstep|].
  by destruct (Hcycle env_ok sample_prices sample_batch emptyState
                 sample_alerted [sample_eth_reading]
                 (sample_evaluated _ _ _ _)) as [? _].
Defined.

(** C10.  Whatever state a cycle hands to the write of the state file, each
    key of the loaded state is still there, with its loaded timestamp or
    with the cycle's [now]. *)
Theorem cooldown_map_never_shrinks cfg env (s : State) :
  WriteStateFile s ∈ trace (runCheck cfg env) →
  ∃ st : State, completion (loadState env) = Normal (Cooldowns st)
        ∧ dom (lastAlerts st) ⊆ dom (lastAlerts s)
        ∧ ∀ k t, lastAlerts st !! k = Some t →
                 lastAlerts s !! k = Some t
                 ∨ lastAlerts s !! k = Some (Date_now env).
Proof.
  intros Hs.
  destruct (fetchJSON env (pricesUrl cfg)) as [prices|e] eqn:Hp.
  - destruct (runCheck_cases _ _ _ Hp)
      as (pre & rs & loaded & Q & _ & _ & Hst & Hcases).
    destruct Hcases as [(e & json & f & -> & E)|(final & low & E & Hshape)].
    { rewrite E in Hs. by apply quiet_no_state_write in Hs. }
    rewrite E in Hs. simpl in Hs. apply elem_of_app in Hs as [Hs|Hs].
    { by apply quiet_no_state_write in Hs. }
    apply finishCycle_state_write in Hs.
    destruct Hshape as [(st & st' & -> & -> & Hev)|(json & f & -> & -> & _)];
      [|done].
    injection Hs as ->.
    destruct (evaluated_run _ _ _ _ _ _ _ Hev) as (_ & _ & _ & _ & _ & Hval).
    exists st. split; [done|].
    assert (Hkeep : ∀ k t, lastAlerts st !! k = Some t →
              lastAlerts st' !! k = Some t
              ∨ lastAlerts st' !! k = Some (Date_now env)).
    { intros k t Hk. destruct (Hval k) as [H|H]; [left|right]; congruence. }
    split; [|done].
    intros k [t Hk]%elem_of_dom. apply elem_of_dom.
    destruct (Hkeep k t Hk) as [->| ->]; eauto.
  - rewrite (runCheck_unpriced cfg env e Hp) in Hs. simpl in Hs.
    rewrite !elem_of_cons, elem_of_nil in Hs.
    by repeat (destruct Hs as [[=]|Hs]).
Qed.

Lemma cooldown_map_never_shrinks_witness :
  ∃ st : State,
        completion (loadState
                      (sample_env (Normal sample_prices)
                         (Normal sample_state_text) (Normal "{}")
                         (Normal tt) (Normal tt))) = Normal (Cooldowns st)
        ∧ dom (lastAlerts st) ⊆ dom (lastAlerts sample_state)
        ∧ ∀ k t, lastAlerts st !! k = Some t →
                 lastAlerts sample_state !! k = Some t
                 ∨ lastAlerts sample_state !! k = Some sample_now.
Proof.
  apply (cooldown_map_never_shrinks (sample_config 6)
           (sample_env (Normal sample_prices) (Normal sample_state_text)
              (Normal "{}") (Normal tt) (Normal tt))).
  apply (list_elem_of_lookup_2 _ 13). vm_compute. reflexivity.
Defined.

(** ** Failures after the evaluation loop *)

(** C1, as the code behaves.  In a cycle with a non-empty alert list the
    alert is requested once.  If the request fails, the failure is logged
    and is the outcome of the whole cycle: the state file and the status
    file are not written.  If the request is answered, the state is handed
    to the write of the state file, and when that write returns the status
    is handed to the write of the status file. *)
Theorem delivery_failure_ends_cycle cfg env prices rs st st' low :
  fetchJSON env (pricesUrl cfg) = Normal prices →
  evaluated cfg env prices rs st st' low →
  low ≠ [] →
  (∀ e, telegram_request env (alertMessage cfg env low) = Throw e →
     completion (runCheck cfg env) = Throw e
     ∧ last (trace (runCheck cfg env)) = Some (ConsoleError (LogTelegramError e))
     ∧ length (List.filter is_alert (trace (runCheck cfg env))) = 1
     ∧ existsb is_state_write (trace (runCheck cfg env)) = false
     ∧ existsb is_status_write (trace (runCheck cfg env)) = false
     ∧ startMonitor cfg env
       = (startupLog cfg ++ trace (runCheck cfg env), Throw e))
  ∧ (∀ body, telegram_request env (alertMessage cfg env low) = Normal body →
     length (List.filter is_alert (trace (runCheck cfg env))) = 1
     ∧ WriteStateFile st' ∈ trace (runCheck cfg env)
     ∧ (writeStateFile env st' = Normal tt →
        WriteStatusFile (statusData cfg env prices rs)
          ∈ trace (runCheck cfg env))).
Proof.
  intros Hp Hev Hlow.
  destruct (runCheck_run _ _ _ _ _ _ _ Hp Hev) as (pre & Q & E).
  split.
  - intros e Htg.
    rewrite (finishCycle_send_fails _ _ _ _ _ _ e Hlow Htg) in E. simpl in E.
    rewrite (startMonitor_rejected cfg env e) by (by rewrite E).
    rewrite E. simpl.
    split; [done|]. split.
    { by rewrite (last_app_cons pre _ (TelegramRequest _)). }
    rewrite List.filter_app, (quiet_no_alert _ Q).
    rewrite !existsb_app, (quiet_no_state_write_b _ Q),
      (quiet_no_status_write_b _ Q). done.
  - intros body Htg. rewrite E. simpl.
    rewrite (finishCycle_sent _ _ _ _ _ _ body Hlow Htg).
    unfold saveThenStatus. simpl.
    rewrite List.filter_app, (quiet_no_alert _ Q).
    destruct (writeStateFile env st') as [[]|e]; simpl.
    + split; [done|]. split.
      * apply elem_of_app. right. set_solver.
      * intros _. apply elem_of_app. right. set_solver.
    + split; [done|]. split; [|done].
      apply elem_of_app. right. set_solver.
Qed.

Lemma delivery_failure_ends_cycle_witness :
  completion (runCheck (sample_config 6) env_telegram_down)
  = Throw "ECONNRESET"
  ∧ existsb is_state_write
      (trace (runCheck (sample_config 6) env_telegram_down)) = false
  ∧ existsb is_status_write
      (trace (runCheck (sample_config 6) env_telegram_down)) = false.
Proof.
  destruct (delivery_failure_ends_cycle (sample_config 6) env_telegram_down
              sample_prices sample_batch emptyState sample_alerted
              [sample_eth_reading] eq_refl (sample_evaluated _ _ _ _))
    as [Hfail _]; [done|].
  destruct (Hfail "ECONNRESET" eq_refl) as (Hc & _ & _ & Hst & Hstatus & _).
  by split.
Defined.

(** C1 as stated fails: Ethereum is eligible, both file writes would
    succeed, the Telegram request fails; the cycle ends with that failure
    and writes neither the state file nor the status file. *)
Lemma delivery_failure_skips_persistence :
  evaluated (sample_config 6) env_telegram_down sample_prices
    sample_batch emptyState sample_alerted [sample_eth_reading]
  ∧ telegram_request env_telegram_down
      (alertMessage (sample_config 6) env_telegram_down [sample_eth_reading])
    = Throw "ECONNRESET"
  ∧ (∀ s, writeStateFile env_telegram_down s = Normal tt)
  ∧ (∀ d, writeStatusFile env_telegram_down d = Normal tt)
  ∧ completion (runCheck (sample_config 6) env_telegram_down)
    = Throw "ECONNRESET"
  ∧ existsb is_state_write
      (trace (runCheck (sample_config 6) env_telegram_down)) = false
  ∧ existsb is_status_write
      (trace (runCheck (sample_config 6) env_telegram_down)) = false
  ∧ completion (startMonitor (sample_config 6) env_telegram_down)
    = Throw "ECONNRESET"
  ∧ existsb is_schedule
      (trace (startMonitor (sample_config 6) env_telegram_down)) = false.
Proof.
  split; [apply sample_evaluated|].
  repeat split; vm_compute; reflexivity.
Qed.

(** C7, as the code behaves.  When the alert step does not fail, a failing
    write of the state file is the last thing the cycle does and is its
    outcome: nothing is logged after it and the status file is not written.
    A failing write of the status file, after the state was saved, is
    likewise the last event and the outcome of the cycle. *)
Theorem persistence_failure_ends_cycle cfg env prices rs st st' low :
  fetchJSON env (pricesUrl cfg) = Normal prices →
  evaluated cfg env prices rs st st' low →
  low = [] ∨ (∃ body, telegram_request env (alertMessage cfg env low)
                      = Normal body) →
  (∀ e, writeStateFile env st' = Throw e →
     completion (runCheck cfg env) = Throw e
     ∧ last (trace (runCheck cfg env)) = Some (WriteStateFile st')
     ∧ existsb is_status_write (trace (runCheck cfg env)) = false
     ∧ startMonitor cfg env
       = (startupLog cfg ++ trace (runCheck cfg env), Throw e))
  ∧ (∀ e, writeStateFile env st' = Normal tt →
          writeStatusFile env (statusData cfg env prices rs) = Throw e →
     completion (runCheck cfg env) = Throw e
     ∧ last (trace (runCheck cfg env))
       = Some (WriteStatusFile (statusData cfg env prices rs))
     ∧ WriteStateFile st' ∈ trace (runCheck cfg env)
     ∧ startMonitor cfg env
       = (startupLog cfg ++ trace (runCheck cfg env), Throw e)).
Proof.
  intros Hp Hev Hsend.
  destruct (runCheck_run _ _ _ _ _ _ _ Hp Hev) as (pre & Q & E).
  assert (Hfin : ∃ t l,
    existsb is_status_write t = false
    ∧ finishCycle cfg env prices rs st' low
      = (t ++ trace (saveThenStatus env st' l (statusData cfg env prices rs)),
         completion (saveThenStatus env st' l (statusData cfg env prices rs)))).
  { destruct (decide (low = [])) as [Hlow|Hlow].
    - exists [], LogAllOk. split; [done|].
      rewrite (finishCycle_nothing_low _ _ _ _ _ _ Hlow). apply run_eta.
    - destruct Hsend as [Hnil|(body & Htg)]; [done|].
      exists [TelegramRequest (alertMessage cfg env low);
              ConsoleLog (LogTelegramResponse (String.substring 0 200 body))],
             (LogAlertsSent (length low)).
      split; [done|]. by apply finishCycle_sent. }
  destruct Hfin as (t & l & Qt & Hfin). rewrite Hfin in E. clear Hfin.
  unfold saveThenStatus in E. simpl in E.
  split.
  - intros e He. rewrite He in E. simpl in E.
    rewrite (startMonitor_rejected cfg env e) by (by rewrite E).
    rewrite E. simpl. split; [done|]. split.
    { by rewrite app_assoc, last_snoc. }
    by rewrite !existsb_app, (quiet_no_status_write_b _ Q), Qt.
  - intros e He1 He2. rewrite He1, He2 in E. simpl in E.
    rewrite (startMonitor_rejected cfg env e) by (by rewrite E).
    rewrite E. simpl. split; [done|]. split.
    { rewrite !app_assoc.
      by rewrite (last_app_cons _ _ (WriteStateFile st')). }
    split; [|done].
    apply elem_of_app. right. apply elem_of_app. right. by left.
Qed.

Lemma persistence_failure_ends_cycle_witness :
  completion (runCheck (sample_config 6) env_disk_full) = Throw "ENOSPC"
  ∧ last (trace (runCheck (sample_config 6) env_disk_full))
    = Some (WriteStateFile sample_alerted)
  ∧ existsb is_status_write
      (trace (runCheck (sample_config 6) env_disk_full)) = false.
Proof.
  destruct (persistence_failure_ends_cycle (sample_config 6) env_disk_full
              sample_prices sample_batch emptyState sample_alerted
              [sample_eth_reading] eq_refl (sample_evaluated _ _ _ _))
    as [Hsave _].
  - right. by exists "{}".
  - destruct (Hsave "ENOSPC" eq_refl) as (Hc & Hl & Hs & _). by split.
Defined.

(** C7 as stated fails: with the disk full, the write of the state file
    throws; the cycle does not complete normally, its last event is that
    write, and the status file is not written.  With the status file
    unwritable, the cycle ends with that failure as well. *)
Lemma persistence_failure_not_recovered :
  writeStateFile env_disk_full sample_alerted = Throw "ENOSPC"
  ∧ completion (runCheck (sample_config 6) env_disk_full) = Throw "ENOSPC"
  ∧ last (trace (runCheck (sample_config 6) env_disk_full))
    = Some (WriteStateFile sample_alerted)
  ∧ existsb is_status_write
      (trace (runCheck (sample_config 6) env_disk_full)) = false
  ∧ completion (runCheck (sample_config 6) env_status_denied)
    = Throw "EACCES"
  ∧ completion (startMonitor (sample_config 6) env_disk_full)
    = Throw "ENOSPC"
  ∧ existsb is_schedule
      (trace (startMonitor (sample_config 6) env_disk_full)) = false.
Proof. repeat split; vm_compute; reflexivity. Qed.

(** * Further properties of the program *)

(** ** Strings *)

Lemma string_length_app (s1 s2 : string) :
  String.length (s1 +:+ s2) = String.length s1 + String.length s2.
Proof. induction s1 as [|c s1 IH]; simpl; [done|]. by rewrite IH. Qed.

Lemma substring_length_le (n m : nat) (s : string) :
  String.length (String.substring n m s) ≤ m.
Proof.
  revert n m. induction s as [|c s IH]; intros [|n] [|m]; simpl; try lia.
  - specialize (IH 0 m). lia.
  - apply (IH n 0).
  - apply (IH n (S m)).
Qed.

Lemma substring_length (n m : nat) (s : string) :
  n + m ≤ String.length s → String.length (String.substring n m s) = m.
Proof.
  revert n m. induction s as [|c s IH]; intros [|n] [|m]; simpl; try lia.
  - intros H. rewrite (IH 0 m); lia.
  - intros H. apply (IH n 0). lia.
  - intros H. apply (IH n (S m)). lia.
Qed.

Lemma substring_all (s : string) :
  String.substring 0 (String.length s) s = s.
Proof. induction s as [|c s IH]; simpl; [done|]. by rewrite IH. Qed.

(** A string is what precedes position [n] followed by what starts there. *)
Lemma substring_cut (n : nat) (s : string) :
  n ≤ String.length s →
  s = String.substring 0 n s +:+ String.substring n (String.length s - n) s.
Proof.
  revert n. induction s as [|c s IH]; intros [|n]; simpl; try lia; intros H.
  - done.
  - by rewrite substring_all.
  - change (String c s
            = String c (String.substring 0 n s
                        +:+ String.substring n (String.length s - n) s)).
    f_equal. apply IH. lia.
Qed.

Lemma substring_skip (p s : string) (n m : nat) :
  String.substring (String.length p + n) m (p +:+ s) = String.substring n m s.
Proof. induction p as [|c p IH]; [done|]. exact IH. Qed.

(** ** The address shown in an alert *)

(** X3.  An address of at most 20 characters is shown as it is.  A longer
    one is shown as 13 characters: its first six, three dots, its last
    four. *)
Theorem shortAddr_shape (a : string) :
  (String.length a ≤ 20 → shortAddr a = a)
  ∧ (20 < String.length a →
     ∃ head tail middle,
       shortAddr a = head +:+ "..." +:+ tail
       ∧ a = head +:+ middle +:+ tail
       ∧ String.length head = 6 ∧ String.length tail = 4
       ∧ String.length (shortAddr a) = 13).
Proof.
  unfold shortAddr. split; intros Hlen.
  - destruct (Nat.ltb_spec 20 (String.length a)) as [H|H]; [lia|done].
  - destruct (Nat.ltb_spec 20 (String.length a)) as [H|H]; [|lia].
    set (head := String.substring 0 6 a).
    set (tail := String.substring (String.length a - 4) 4 a).
    assert (Hhead : String.length head = 6) by (apply substring_length; lia).
    assert (Htail : String.length tail = 4) by (apply substring_length; lia).
    set (rest := String.substring 6 (String.length a - 6) a).
    assert (Hrest : String.length rest = String.length a - 6)
      by (apply substring_length; lia).
    assert (Ha : a = head +:+ rest) by (apply substring_cut; lia).
    assert (Ht : tail = String.substring (String.length rest - 4) 4 rest).
    { subst tail. rewrite Ha at 2.
      replace (String.length a - 4)
        with (String.length head + (String.length rest - 4)) by lia.
      apply substring_skip. }
    exists head, tail, (String.substring 0 (String.length rest - 4) rest).
    split; [done|]. split; [|split; [done|split; [done|]]].
    + rewrite Ha at 1. f_equal.
      rewrite (substring_cut (String.length rest - 4) rest) at 1 by lia.
      f_equal. rewrite Ht. f_equal. lia.
    + rewrite !string_length_app, Hhead, Htail. done.
Qed.

Lemma shortAddr_shape_witness :
  shortAddr "So1anaWa11et" = "So1anaWa11et"
  ∧ String.length (shortAddr sample_evm_address) = 13.
Proof.
  destruct (shortAddr_shape "So1anaWa11et") as [Hshort _].
  destruct (shortAddr_shape sample_evm_address) as [_ Hlong].
  split.
  - apply Hshort. vm_compute. lia.
  - destruct Hlong as (h & t & m & _ & _ & _ & _ & H); [vm_compute; lia|].
    exact H.
Defined.

(** ** The price request *)

Lemma Set_add_spec (ids : list string) (x : string) :
  NoDup ids →
  NoDup (Set_add ids x) ∧ ∀ y, y ∈ Set_add ids x ↔ y ∈ ids ∨ y = x.
Proof.
  intros Hnd. unfold Set_add. case_bool_decide as Hin.
  - split; [done|]. intros y. split; [by left|]. by intros [?| ->].
  - split.
    + apply NoDup_app. split; [done|]. split; [|apply NoDup_singleton].
      intros y Hy ->%list_elem_of_singleton. done.
    + intros y. by rewrite elem_of_app, list_elem_of_singleton.
Qed.

Lemma foldl_Set_add_spec (l : list string) :
  ∀ ids, NoDup ids →
    NoDup (foldl Set_add ids l)
    ∧ ∀ y, y ∈ foldl Set_add ids l ↔ y ∈ ids ∨ y ∈ l.
Proof.
  induction l as [|x l IH]; intros ids Hnd; simpl.
  - split; [done|]. intros y. rewrite elem_of_nil. tauto.
  - destruct (Set_add_spec ids x Hnd) as [Hnd' Hin'].
    destruct (IH _ Hnd') as [Hnd'' Hin'']. split; [done|].
    intros y. rewrite Hin'', Hin', elem_of_cons. tauto.
Qed.

(** X1.  The price request names every configured asset identifier, those
    of the EVM chains and that of Solana, each exactly once, and nothing
    else. *)
Theorem price_request_ids cfg :
  pricesUrl cfg
  = "https://api.coingecko.com/api/v3/simple/price?ids="
      +:+ join "," (priceIds cfg) +:+ "&vs_currencies=usd"
  ∧ NoDup (priceIds cfg)
  ∧ ∀ id, id ∈ priceIds cfg ↔
          id = Chain.coingecko_id (solana cfg)
          ∨ ∃ entry, entry ∈ chains cfg ∧ Chain.coingecko_id entry.2 = id.
Proof.
  split; [done|]. unfold priceIds.
  destruct (foldl_Set_add_spec ((Chain.coingecko_id ∘ snd) <$> chains cfg)
              [] (NoDup_nil_2)) as [Hnd Hin].
  destruct (Set_add_spec _ (Chain.coingecko_id (solana cfg)) Hnd)
    as [Hnd' Hin'].
  split; [done|]. intros id. rewrite Hin', Hin, elem_of_nil, list_elem_of_fmap.
  split.
  - intros [[[]|(entry & -> & He)]| ->]; [right|left]; eauto.
  - intros [->|(entry & He & <-)]; [by right|left; right]. eauto.
Qed.

(** X2.  [fetchJSON] hands a request error on unchanged, replaces the
    parser's error by a message made of a fixed prefix and at most the first
    200 characters of the body, and accepts any body the parser accepts.  In
    the two failing cases the cycle logs that message and stops there. *)
Theorem fetch_failure_reported cfg env (parse : string → Completion _)
    response :
  fetchJSON env (pricesUrl cfg) = fetchJSON_body parse response →
  (∀ e, response = Throw e →
     runCheck cfg env
     = ([ConsoleLog (LogRunning (Date_toISOString env));
         HttpsGet (pricesUrl cfg);
         ConsoleError (LogPricesFailed e)], Normal tt))
  ∧ (∀ chunks e,
       response = Normal chunks →
       parse (foldl String.append "" chunks) = Throw e →
       ∃ shown,
         shown = "JSON parse error: "
                 +:+ String.substring 0 200 (foldl String.append "" chunks)
         ∧ String.length shown ≤ 218
         ∧ runCheck cfg env
           = ([ConsoleLog (LogRunning (Date_toISOString env));
               HttpsGet (pricesUrl cfg);
               ConsoleError (LogPricesFailed shown)], Normal tt))
  ∧ (∀ chunks value,
       response = Normal chunks →
       parse (foldl String.append "" chunks) = Normal value →
       fetchJSON env (pricesUrl cfg) = Normal value).
Proof.
  intros Hfetch. split; [|split].
  - intros e ->. by apply runCheck_unpriced.
  - intros chunks e -> Hparse. eexists. split; [done|]. split.
    + rewrite string_length_app. simpl.
      pose proof (substring_length_le 0 200
                    (foldl String.append "" chunks)). lia.
    + apply runCheck_unpriced. rewrite Hfetch. simpl. by rewrite Hparse.
  - intros chunks value -> Hparse. rewrite Hfetch. simpl. by rewrite Hparse.
Qed.

Lemma fetch_failure_reported_witness :
  runCheck (sample_config 6) env_price_garbled
  = ([ConsoleLog (LogRunning (Date_toISOString env_price_garbled));
      HttpsGet (pricesUrl (sample_config 6));
      ConsoleError
        (LogPricesFailed
           "JSON parse error: <html>Too many requests</html>")],
     Normal tt).
Proof.
  destruct (fetch_failure_reported (sample_config 6) env_price_garbled
              (λ _, Throw "Unexpected token <")
              (Normal ["<html>"; "Too many requests"; "</html>"]) eq_refl)
    as (_ & Hparse & _).
  destruct (Hparse ["<html>"; "Too many requests"; "</html>"]
              "Unexpected token <" eq_refl eq_refl) as (shown & -> & _ & H).
  exact H.
Defined.

(** ** The calls of a whole cycle *)



Lemma balanceCalls_reads cfg env :
  List.filter is_balance_read (balanceCalls cfg env) = balanceCalls cfg env.
Proof.
  unfold balanceCalls. rewrite List.filter_app. f_equal.
  - induction (chains cfg) as [|entry rest IH]; [done|].
    rewrite fmap_cons. cbn [List.filter is_balance_read]. by rewrite IH.
  - destruct (new_Connection env (Chain.rpc (solana cfg))); [|done].
    by destruct (new_PublicKey env (solana_address cfg)).
Qed.

Lemma finishCycle_reads_nothing cfg env prices rs st' low :
  List.filter is_balance_read (trace (finishCycle cfg env prices rs st' low))
  = [].
Proof.
  destruct (decide (low = [])) as [Hlow|Hlow].
  - rewrite (finishCycle_nothing_low _ _ _ _ _ _ Hlow). unfold saveThenStatus.
    by destruct (writeStateFile env st').
  - destruct (telegram_request env (alertMessage cfg env low)) as [body|e] eqn:Htg.
    + rewrite (finishCycle_sent _ _ _ _ _ _ body Hlow Htg). unfold saveThenStatus.
      by destruct (writeStateFile env st').
    + by rewrite (finishCycle_send_fails _ _ _ _ _ _ e Hlow Htg).
Qed.

(** X4.  In a cycle that got its prices, the balance of every configured
    EVM chain is asked for exactly once, in the order of the configuration,
    whether earlier chains answered or not and whatever fails later in the
    cycle.  The Solana balance is asked for after them, once, when the
    connection and the public key could be built, and not at all when
    building one of them throws. *)
Theorem balance_reads_once cfg env prices :
  fetchJSON env (pricesUrl cfg) = Normal prices →
  List.filter is_balance_read (trace (runCheck cfg env))
  = ((λ entry : string * Chain.t,
        EvmGetBalance (Chain.rpc entry.2) (evm_address cfg)) <$> chains cfg)
    ++ match new_Connection env (Chain.rpc (solana cfg)),
             new_PublicKey env (solana_address cfg) with
       | Normal _, Normal _ =>
           [SolanaGetBalance (Chain.rpc (solana cfg)) (solana_address cfg)]
       | _, _ => []
       end.
Proof.
  intros Hp. fold (balanceCalls cfg env).
  destruct (runCheck_cases _ _ _ Hp)
    as (pre & rs & loaded & _ & Hcalls & _ & _ & Hcases).
  assert (Hpre : List.filter is_balance_read pre = balanceCalls cfg env).
  { rewrite (filter_refines is_balance_read is_call) by (by intros []).
    rewrite Hcalls, !List.filter_app, balanceCalls_reads. simpl.
    by rewrite app_nil_r. }
  destruct Hcases as [(e & _ & _ & _ & ->)|(final & low & -> & _)].
  - done.
  - change (trace (?t, ?c)) with t.
    rewrite List.filter_app, Hpre, finishCycle_reads_nothing.
    by rewrite app_nil_r.
Qed.

Lemma balance_reads_once_witness :
  List.filter is_balance_read (trace (runCheck (sample_config 6) env_disk_full))
  = [EvmGetBalance "https://eth.example" sample_evm_address;
     EvmGetBalance "https://base.example" sample_evm_address;
     SolanaGetBalance "https://sol.example" sample_solana_address]
  ∧ List.filter is_balance_read
      (trace (runCheck sample_config_bad_key env_ok))
    = [EvmGetBalance "https://eth.example" sample_evm_address;
       EvmGetBalance "https://base.example" sample_evm_address].
Proof.
  split.
  - by rewrite (balance_reads_once (sample_config 6) env_disk_full
                  sample_prices eq_refl).
  - by rewrite (balance_reads_once sample_config_bad_key env_ok
                  sample_prices eq_refl).
Defined.

(** ** The batch of a cycle *)

Lemma checkSolanaBalance_chain cfg env prices sol :
  completion (checkSolanaBalance cfg env prices) = Normal sol →
  chain sol = Chain.name (solana cfg).
Proof.
  unfold checkSolanaBalance. unfold_js.
  destruct (new_Connection env _) as [[]|e1]; simpl; [|by intros [= <-]].
  destruct (new_PublicKey env _) as [[]|e2]; simpl; [|by intros [= <-]].
  destruct (solana_getBalance env _ _); simpl; by intros [= <-].
Qed.

(** The batch of a cycle, whatever follows. *)
Lemma readBalances_batch cfg env prices rs :
  completion (readBalances cfg env prices) = Normal rs →
  Forall reading_ok rs
  ∧ chain <$> rs
    = ((Chain.name ∘ snd) <$> chains cfg) ++ [Chain.name (solana cfg)].
Proof.
  intros Hrs.
  destruct (readBalances_run cfg env prices) as (t1 & sol & E1 & _ & Hsol).
  rewrite E1 in Hrs. injection Hrs as <-.
  destruct (checkSolanaBalance_run cfg env prices)
    as (t & sol' & E & _ & _ & Hok & _).
  pose proof (checkSolanaBalance_chain _ _ _ _ Hsol) as Hname.
  rewrite E in Hsol. injection Hsol as <-. split.
  - apply Forall_app. split; [|by apply Forall_singleton].
    apply Forall_fmap, Forall_forall. intros entry _. apply evmReading_ok.
  - rewrite fmap_app. simpl. rewrite Hname. f_equal.
    rewrite <- list_fmap_compose. apply list_fmap_ext.
    intros i [k c] _. unfold evmReading. simpl.
    by destruct (evm_getBalance env _ _).
Qed.

(** What [evaluated] says of the batch itself. *)
Lemma evaluated_batch cfg env prices rs st st' low :
  evaluated cfg env prices rs st st' low →
  Forall reading_ok rs
  ∧ chain <$> rs
    = ((Chain.name ∘ snd) <$> chains cfg) ++ [Chain.name (solana cfg)].
Proof. intros (Hrs & _ & _). by apply (readBalances_batch cfg env prices). Qed.

(** X5.  A chain whose asset has no price in the response, or an entry
    without [usd], is not an error: when its RPC call answers, its reading
    carries the balance, the price 0, the product of the two as value, and
    no error message. *)
Theorem missing_price_is_zero cfg env prices chainKey c wei :
  evm_getBalance env (Chain.rpc c) (evm_address cfg) = Normal wei →
  prices !! Chain.coingecko_id c ≫= usd = None →
  ∃ tr r,
    checkEVMChain cfg env prices (chainKey, c) = (tr, Normal r)
    ∧ price r = 0%float
    ∧ balance r = Some (etherNumber env wei)
    ∧ valueUSD r = Some (etherNumber env wei * 0)%float
    ∧ error r = None.
Proof.
  intros Hbal Hprice.
  destruct (checkEVMChain_run cfg env prices (chainKey, c)) as (tr & E & _).
  exists tr, (evmReading cfg env prices (chainKey, c)). split; [done|].
  unfold evmReading, priceOf. simpl. by rewrite Hbal, Hprice.
Qed.

Lemma missing_price_is_zero_witness :
  ∃ tr r,
    checkEVMChain (sample_config 6) env_ok ∅ ("ethereum", sample_ethereum)
    = (tr, Normal r)
    ∧ price r = 0%float
    ∧ balance r = Some 0.015625%float
    ∧ valueUSD r = Some (0.015625 * 0)%float
    ∧ error r = None.
Proof.
  apply (missing_price_is_zero (sample_config 6) env_ok ∅ "ethereum"
           sample_ethereum 15625000000000000%Z); reflexivity.
Defined.

(** ** The alert list and the cooldown state *)

(** With pairwise distinct keys the alert list is the batch filtered by
    eligibility against the state the loop started from. *)
Lemma evaluate_filter cfg now rs :
  ∀ (st : State) low0 tr (st' : State) low,
    NoDup (key <$> rs) →
    evaluate cfg now rs st low0 = (tr, Normal (Cooldowns st', low0 ++ low)) →
    low = List.filter (eligible cfg now st) rs.
Proof.
  induction rs as [|r0 rest IH]; intros st low0 tr st' low Hnd Hev.
  { simpl in Hev. injection Hev as _ _ Hlow.
    rewrite <- (app_nil_r low0) in Hlow at 1. by apply app_inv_head in Hlow. }
  rewrite fmap_cons in Hnd. apply NoDup_cons in Hnd as [Hfresh Hnd].
  simpl in Hev.
  destruct (evalReading_run cfg now r0 st low0) as (t1 & E1 & _).
  rewrite (bind_normal _ _ _ _ E1) in Hev. simpl.
  destruct (eligible cfg now st r0) eqn:El.
  - destruct (evaluate_run cfg now rest
                {| lastAlerts := <[key r0 := now]> (lastAlerts st) |}
                (low0 ++ [r0]))
      as (t2 & st2 & low2 & E2 & _).
    rewrite E2 in Hev. simpl in Hev.
    injection Hev as _ _ Hlow. rewrite <- app_assoc in Hlow.
    apply app_inv_head in Hlow. simpl in Hlow. subst low. f_equal.
    rewrite (IH _ _ _ _ _ Hnd E2). apply List.filter_ext_in.
    intros r Hr%list_elem_of_In. apply eligible_insert_ne.
    intros Heq. apply Hfresh. rewrite Heq. by apply list_elem_of_fmap_2.
  - destruct (evaluate_run cfg now rest st low0)
      as (t2 & st2 & low2 & E2 & _).
    rewrite E2 in Hev. simpl in Hev.
    injection Hev as _ _ Hlow. apply app_inv_head in Hlow. subst low.
    by apply (IH _ _ _ _ _ Hnd E2).
Qed.

(** X6.  With the keys of [config.chains] distinct, the alert list of a
    cycle is the batch with the readings that are not eligible against the
    loaded state removed: eligible readings appear once each, in the order
    of the batch. *)
Theorem alert_list_in_order cfg env prices rs st st' low :
  NoDup (chains cfg).*1 →
  evaluated cfg env prices rs st st' low →
  low = List.filter (eligible cfg (Date_now env) st) rs
  ∧ NoDup low.
Proof.
  intros Hnd Hev.
  pose proof (evaluated_distinct _ _ _ _ _ _ _ Hev Hnd) as Hkeys.
  destruct (evaluated_run _ _ _ _ _ _ _ Hev) as (tr & E & _).
  pose proof (evaluate_filter cfg (Date_now env) rs st [] tr st' low Hkeys E)
    as ->.
  split; [done|]. apply NoDup_ListNoDup, List.NoDup_filter, NoDup_ListNoDup.
  by apply NoDup_fmap_1 in Hkeys.
Qed.

Lemma alert_list_in_order_witness :
  [sample_eth_reading]
  = List.filter (eligible (sample_config 6) (Date_now env_ok) emptyState)
      sample_batch
  ∧ NoDup [sample_eth_reading].
Proof.
  apply (alert_list_in_order (sample_config 6) env_ok sample_prices
           sample_batch emptyState sample_alerted [sample_eth_reading]).
  - apply sample_chains_distinct.
  - apply sample_evaluated.
Defined.

(** X7.  The keys of the cooldown state after the loop are the keys of the
    loaded state together with the keys of the alerted readings; every key
    that is not the key of an alerted reading keeps the value it had, so no
    key outside the batch is ever added or changed. *)
Theorem cooldown_keys_exact cfg env prices rs st st' low :
  evaluated cfg env prices rs st st' low →
  dom (lastAlerts st') = dom (lastAlerts st) ∪ list_to_set (key <$> low)
  ∧ (∀ k, k ∉ key <$> low → lastAlerts st' !! k = lastAlerts st !! k)
  ∧ (∀ k, k ∈ key <$> low → k ∈ key <$> rs
                            ∧ lastAlerts st' !! k = Some (Date_now env)).
Proof.
  intros Hev.
  destruct (evaluated_run _ _ _ _ _ _ _ Hev) as (_ & _ & _ & Hin & Hframe & _).
  assert (Hlow : ∀ k, k ∈ key <$> low →
            k ∈ key <$> rs ∧ lastAlerts st' !! k = Some (Date_now env)).
  { intros k (r & -> & Hr)%list_elem_of_fmap.
    destruct (Hin r Hr) as (Hrs & _ & Hnow).
    split; [by apply list_elem_of_fmap_2|done]. }
  split; [|done]. apply set_eq. intros k.
  rewrite elem_of_union, elem_of_list_to_set, !elem_of_dom.
  destruct (decide (k ∈ key <$> low)) as [Hk|Hk].
  - destruct (Hlow k Hk) as [_ ->]. split; [by right|eauto].
  - rewrite (Hframe k Hk). split; [by left|by intros [?|?]].
Qed.

Lemma cooldown_keys_exact_witness :
  dom (lastAlerts sample_alerted)
  = dom (lastAlerts emptyState)
    ∪ list_to_set (key <$> [sample_eth_reading]).
Proof.
  by destruct (cooldown_keys_exact (sample_config 6) env_ok sample_prices
                 sample_batch emptyState sample_alerted [sample_eth_reading]
                 (sample_evaluated _ _ _ _)) as [H _].
Defined.

(** ** Cycles that complete *)

Lemma state_eq (s1 s2 : State) :
  (∀ k, lastAlerts s1 !! k = lastAlerts s2 !! k) → s1 = s2.
Proof. destruct s1, s2. simpl. intros H. f_equal. by apply map_eq. Qed.

(** X8.  When no reading is eligible, the cycle sends no alert, and the
    state it hands to the write of the state file is exactly the loaded
    one: the file is rewritten with what it held. *)
Theorem quiet_cycle_rewrites_state cfg env prices rs st st' low :
  fetchJSON env (pricesUrl cfg) = Normal prices →
  evaluated cfg env prices rs st st' low →
  low = [] →
  st' = st
  ∧ List.filter is_alert (trace (runCheck cfg env)) = []
  ∧ WriteStateFile st ∈ trace (runCheck cfg env).
Proof.
  intros Hp Hev Hlow.
  destruct (evaluated_run _ _ _ _ _ _ _ Hev) as (_ & _ & _ & _ & Hframe & _).
  assert (Hst : st' = st).
  { apply state_eq. intros k. apply Hframe. subst low. apply not_elem_of_nil. }
  split; [done|].
  destruct (runCheck_run _ _ _ _ _ _ _ Hp Hev) as (pre & Q & E).
  rewrite E. change (trace (?t, ?c)) with t.
  rewrite (finishCycle_nothing_low _ _ _ _ _ _ Hlow), Hst.
  rewrite List.filter_app, (quiet_no_alert _ Q). unfold saveThenStatus.
  destruct (writeStateFile env st); simpl;
    (split; [done|]); apply elem_of_app; right; by left.
Qed.

Lemma quiet_cycle_rewrites_state_witness :
  List.filter is_alert
    (trace (runCheck (sample_config 6)
              (sample_env (Normal sample_prices) (Normal sample_state_text)
                 (Normal "{}") (Normal tt) (Normal tt)))) = [].
Proof.
  by destruct (quiet_cycle_rewrites_state (sample_config 6)
                 (sample_env (Normal sample_prices) (Normal sample_state_text)
                    (Normal "{}") (Normal tt) (Normal tt))
                 sample_prices sample_batch sample_state sample_state []
                 eq_refl (sample_suppressed _ _ _ _) eq_refl) as (_ & H & _).
Defined.



(** ** What is sent and what is published *)

(** X10.  In a cycle with a non-empty alert list there is one alert request
    for the whole batch; its message has one entry per alerted reading, in
    the order of the alert list, and every entry carries a balance and a
    value, the value below the threshold: the rendering of a null balance
    or value is never needed in an alert. *)
Theorem alert_message_lines cfg env prices rs st st' low :
  fetchJSON env (pricesUrl cfg) = Normal prices →
  evaluated cfg env prices rs st st' low →
  low ≠ [] →
  List.filter is_alert (trace (runCheck cfg env))
  = [TelegramRequest (alertMessage cfg env low)]
  ∧ line_chain <$> msg_lines (alertMessage cfg env low) = chain <$> low
  ∧ Forall (λ l, ∃ b v, line_balance l = Some b ∧ line_value l = Some v
                        ∧ (v <? threshold_usd cfg)%float = true)
      (msg_lines (alertMessage cfg env low)).
Proof.
  intros Hp Hev Hlow. split; [|split].
  - destruct (runCheck_run _ _ _ _ _ _ _ Hp Hev) as (pre & Q & E).
    rewrite E. change (trace (?t, ?c)) with t.
    rewrite List.filter_app, (quiet_no_alert _ Q).
    destruct (telegram_request env (alertMessage cfg env low))
      as [body|e] eqn:Htg.
    + rewrite (finishCycle_sent _ _ _ _ _ _ body Hlow Htg). unfold saveThenStatus.
      by destruct (writeStateFile env st').
    + by rewrite (finishCycle_send_fails _ _ _ _ _ _ e Hlow Htg).
  - unfold alertMessage. simpl. by rewrite <- list_fmap_compose.
  - unfold alertMessage. simpl. apply Forall_fmap, Forall_forall.
    intros r Hr. simpl.
    destruct (evaluated_run _ _ _ _ _ _ _ Hev) as (_ & _ & _ & Hin & _).
    destruct (Hin r Hr) as (Hrs & Hl & _).
    destruct (evaluated_batch _ _ _ _ _ _ _ Hev) as [Hok _].
    rewrite Forall_forall in Hok. destruct (Hok r Hrs) as [Hiff _].
    unfold isLow in Hl. destruct (valueUSD r) as [v|] eqn:Hv; [|done].
    destruct Hiff as [[b Hb] _]; [by eexists|]. by exists b, v.
Qed.

Lemma alert_message_lines_witness :
  List.filter is_alert (trace (runCheck (sample_config 6) env_telegram_down))
  = [TelegramRequest
       (alertMessage (sample_config 6) env_telegram_down
          [sample_eth_reading])].
Proof.
  by destruct (alert_message_lines (sample_config 6) env_telegram_down
                 sample_prices sample_batch emptyState sample_alerted
                 [sample_eth_reading] eq_refl (sample_evaluated _ _ _ _))
    as [H _].
Defined.

Lemma finishCycle_status_write cfg env prices rs st' low d :
  WriteStatusFile d ∈ trace (finishCycle cfg env prices rs st' low) →
  d = statusData cfg env prices rs.
Proof.
  destruct (decide (low = [])) as [Hlow|Hlow].
  - rewrite (finishCycle_nothing_low _ _ _ _ _ _ Hlow). unfold saveThenStatus.
    destruct (writeStateFile env st'); simpl;
      rewrite ?elem_of_cons, elem_of_nil; intros H;
      by repeat (destruct H as [[=]|H]).
  - destruct (telegram_request env (alertMessage cfg env low))
      as [body|e] eqn:Htg.
    + rewrite (finishCycle_sent _ _ _ _ _ _ body Hlow Htg). unfold saveThenStatus.
      destruct (writeStateFile env st'); simpl;
        rewrite ?elem_of_cons, elem_of_nil; intros H;
        by repeat (destruct H as [[=]|H]).
    + rewrite (finishCycle_send_fails _ _ _ _ _ _ e Hlow Htg). simpl.
      rewrite ?elem_of_cons, elem_of_nil. intros H.
      by repeat (destruct H as [[=]|H]).
Qed.

Lemma quiet_no_status_write t d :
  forallb quiet t = true → WriteStatusFile d ∉ t.
Proof.
  intros Q Hin. rewrite forallb_forall in Q.
  apply list_elem_of_In in Hin. by apply Q in Hin.
Qed.

(** X11.  Whatever status a cycle hands to the write of the status file, it
    carries the cycle's start time and the price table as fetched, and one
    entry per configured chain in the order of the configuration, then
    Solana, chains whose read failed included.  An entry without a balance
    has no value and is not flagged; an entry is flagged exactly when it has
    a value below the threshold, whatever the cooldown state. *)
Theorem status_snapshot_complete cfg env d :
  WriteStatusFile d ∈ trace (runCheck cfg env) →
  timestamp d = Date_toISOString env
  ∧ fetchJSON env (pricesUrl cfg) = Normal (prices d)
  ∧ st_chain <$> balances d
    = ((Chain.name ∘ snd) <$> chains cfg) ++ [Chain.name (solana cfg)]
  ∧ Forall (λ e, (st_balance e = None → st_valueUSD e = None)
                 ∧ (belowThreshold e = true ↔
                    ∃ v, st_valueUSD e = Some v
                         ∧ (v <? threshold_usd cfg)%float = true))
      (balances d).
Proof.
  intros Hd.
  destruct (fetchJSON env (pricesUrl cfg)) as [fetched|e] eqn:Hp.
  - destruct (runCheck_cases _ _ _ Hp)
      as (pre & rs & loaded & Q & _ & Hrs & _ & Hcases).
    destruct Hcases as [(e & _ & _ & _ & E)|(final & low & E & _)].
    { rewrite E in Hd. by apply quiet_no_status_write in Hd. }
    rewrite E in Hd. simpl in Hd. apply elem_of_app in Hd as [Hd|Hd].
    { by apply quiet_no_status_write in Hd. }
    apply finishCycle_status_write in Hd as ->.
    destruct (readBalances_batch _ _ _ _ Hrs) as [Hok Hnames].
    unfold statusData. simpl. split; [done|]. split; [done|]. split.
    + by rewrite <- list_fmap_compose.
    + apply Forall_fmap, Forall_forall. intros r Hr. simpl.
      rewrite Forall_forall in Hok. destruct (Hok r Hr) as [Hiff _].
      split.
      * intros Hb. destruct (valueUSD r) as [v|] eqn:Hv; [|done].
        destruct Hiff as [[b Hb'] _]; [by eexists|]. congruence.
      * unfold isLow. destruct (valueUSD r) as [v|].
        -- split; [by exists v|]. by intros (v' & [= <-] & ?).
        -- split; [done|]. by intros (v' & [=] & _).
  - rewrite (runCheck_unpriced cfg env e Hp) in Hd. simpl in Hd.
    rewrite !elem_of_cons, elem_of_nil in Hd.
    by repeat (destruct Hd as [[=]|Hd]).
Qed.

Lemma status_snapshot_complete_witness :
  st_chain <$> balances (statusData (sample_config 6) env_ok sample_prices
                           sample_batch)
  = ["Ethereum"; "Base"; "Solana"].
Proof.
  destruct (status_snapshot_complete (sample_config 6) env_ok
              (statusData (sample_config 6) env_ok sample_prices sample_batch))
    as (_ & _ & H & _); [|exact H].
  apply (list_elem_of_lookup_2 _ 16). vm_compute. reflexivity.
Defined.

(** ** From one cycle to the next *)

(** X12.  Let a cycle alert a reading at its time [t1], and let a later
    cycle load the state the first one saved.  With the keys of
    [config.chains] distinct and [t1] a truthy number, the reading with the
    same key is alerted again exactly when it is below the threshold and the
    later time minus [t1] exceeds the cooldown; when it is not alerted, its
    entry still holds [t1]. *)
Theorem cooldown_across_cycles cfg env1 prices1 rs1 st1 saved low1
    env2 prices2 rs2 st2 low2 r1 r2 :
  NoDup (chains cfg).*1 →
  evaluated cfg env1 prices1 rs1 st1 saved low1 →
  evaluated cfg env2 prices2 rs2 saved st2 low2 →
  r1 ∈ low1 → r2 ∈ rs2 → key r2 = key r1 →
  truthy (Date_now env1) = true →
  (r2 ∈ low2 ↔
     isLow cfg r2 = true
     ∧ (cooldownMs cfg <? Date_now env2 - Date_now env1)%float = true)
  ∧ (r2 ∉ low2 → lastAlerts st2 !! key r2 = Some (Date_now env1))
  ∧ (r2 ∈ low2 → lastAlerts st2 !! key r2 = Some (Date_now env2)).
Proof.
  intros Hnd Hev1 Hev2 Hr1 Hr2 Hkey Htruthy.
  destruct (evaluated_run _ _ _ _ _ _ _ Hev1) as (_ & _ & _ & Hin1 & _).
  destruct (Hin1 r1 Hr1) as (_ & _ & Hsaved). rewrite <- Hkey in Hsaved.
  pose proof (evaluated_distinct _ _ _ _ _ _ _ Hev2 Hnd) as Hkeys.
  destruct (evaluated_run _ _ _ _ _ _ _ Hev2)
    as (tr & E & _ & Hin2 & Hframe & _).
  pose proof (evaluate_distinct cfg (Date_now env2) rs2 saved [] tr st2 low2
                Hkeys E r2 Hr2) as Hiff.
  unfold eligible in Hiff. rewrite andb_true_iff, Hsaved in Hiff.
  simpl in Hiff. rewrite Htruthy in Hiff.
  split; [done|]. split.
  - intros Hout. rewrite Hframe; [done|]. eauto using key_off_alert_list.
  - intros Hlow. by destruct (Hin2 r2 Hlow) as (_ & _ & ?).
Qed.

Lemma sample_first_alert :
  evaluated (sample_config 6) env_hour_before sample_prices
    sample_batch emptyState sample_state [sample_eth_reading].
Proof. repeat split; vm_compute; reflexivity. Qed.

Lemma cooldown_across_cycles_witness :
  sample_eth_reading ∈ ([] : list Reading) ↔
    isLow (sample_config 6) sample_eth_reading = true
    ∧ (cooldownMs (sample_config 6)
       <? sample_now - Date_now env_hour_before)%float = true.
Proof.
  destruct (cooldown_across_cycles (sample_config 6)
              env_hour_before sample_prices sample_batch emptyState
              sample_state [sample_eth_reading]
              (sample_env (Normal sample_prices) (Normal sample_state_text)
                 (Normal "{}") (Normal tt) (Normal tt))
              sample_prices sample_batch sample_state []
              sample_eth_reading sample_eth_reading
              (sample_chains_distinct _) sample_first_alert
              (sample_suppressed _ _ _ _)) as (H & _).
  - by left.
  - by left.
  - reflexivity.
  - by vm_compute.
  - exact H.
Defined.

(** ** Scheduling *)

Lemma finishCycle_schedules_nothing cfg env prices rs (st' : Stored) low :
  List.filter is_schedule (trace (finishCycle cfg env prices rs st' low)) = [].
Proof.
  destruct (decide (low = [])) as [Hlow|Hlow].
  - rewrite (finishCycle_nothing_low _ _ _ _ _ _ Hlow). unfold saveThenStatus.
    by destruct (writeStateFile env st').
  - destruct (telegram_request env (alertMessage cfg env low))
      as [body|e] eqn:Htg.
    + rewrite (finishCycle_sent _ _ _ _ _ _ body Hlow Htg).
      unfold saveThenStatus. by destruct (writeStateFile env st').
    + by rewrite (finishCycle_send_fails _ _ _ _ _ _ e Hlow Htg).
Qed.

Lemma runCheck_never_schedules cfg env :
  List.filter is_schedule (trace (runCheck cfg env)) = [].
Proof.
  destruct (fetchJSON env (pricesUrl cfg)) as [prices|e] eqn:Hp.
  - destruct (runCheck_cases _ _ _ Hp)
      as (pre & rs & loaded & _ & Hcalls & _ & _ & Hcases).
    assert (Hpre : List.filter is_schedule pre = []).
    { rewrite (filter_refines is_schedule is_call) by (by intros []).
      rewrite Hcalls, !List.filter_app. simpl. rewrite app_nil_r.
      unfold balanceCalls. rewrite List.filter_app.
      assert (Hevm : List.filter is_schedule
                ((λ entry : string * Chain.t,
                    EvmGetBalance (Chain.rpc entry.2) (evm_address cfg))
                   <$> chains cfg) = []).
      { induction (chains cfg) as [|entry rest IH]; [done|].
        by rewrite fmap_cons. }
      rewrite Hevm. simpl.
      destruct (new_Connection env (Chain.rpc (solana cfg))); [|done].
      by destruct (new_PublicKey env (solana_address cfg)). }
    destruct Hcases as [(e & _ & _ & _ & ->)|(final & low & -> & _)].
    + done.
    + change (trace (?t, ?c)) with t.
      by rewrite List.filter_app, Hpre, finishCycle_schedules_nothing.
  - by rewrite (runCheck_unpriced cfg env e Hp).
Qed.

(** X13.  At start-up [cron.schedule] is called exactly when the first
    cycle completes normally, and then once, with the configured interval;
    start-up then completes or fails as that call does.  A first cycle that
    ends with a failure ends start-up with that failure, and nothing is
    scheduled. *)
Theorem schedule_called_iff_first_cycle_completes cfg env :
  List.filter is_schedule (trace (startMonitor cfg env))
  = match completion (runCheck cfg env) with
    | Normal _ => [CronSchedule (check_interval_minutes cfg)]
    | Throw _ => []
    end
  ∧ completion (startMonitor cfg env)
    = match completion (runCheck cfg env) with
      | Normal _ => cron_schedule env (check_interval_minutes cfg)
      | Throw e => Throw e
      end.
Proof.
  destruct (completion (runCheck cfg env)) as [[]|e] eqn:Hc.
  - rewrite (startMonitor_fulfilled _ _ Hc).
    destruct (cron_schedule env (check_interval_minutes cfg)) as [[]|e];
      change (trace (?t, ?c)) with t;
      rewrite !List.filter_app, runCheck_never_schedules; done.
  - rewrite (startMonitor_rejected _ _ _ Hc). change (trace (?t, ?c)) with t.
    rewrite !List.filter_app, runCheck_never_schedules. done.
Qed.

(** ** Alert keys *)

(** X14.  The keys of a cycle's batch are [evm_] followed by the chain's
    key in [config.chains], in the order of the configuration, and then
    [solana]; they are pairwise distinct when the keys of [config.chains]
    are, so that an EVM chain and Solana never share a cooldown entry. *)
Theorem batch_keys cfg env prices rs st st' low :
  evaluated cfg env prices rs st st' low →
  key <$> rs = ((λ k : string, "evm_" +:+ k) <$> (chains cfg).*1) ++ ["solana"]
  ∧ (NoDup (chains cfg).*1 → NoDup (key <$> rs)).
Proof.
  intros Hev. split; [|by apply (evaluated_distinct _ _ _ _ _ _ _ Hev)].
  destruct Hev as (Hrs & _ & _).
  destruct (readBalances_run cfg env prices) as (t1 & sol & E1 & _ & Hsol).
  rewrite E1 in Hrs. injection Hrs as <-.
  destruct (checkSolanaBalance_run cfg env prices)
    as (t & sol' & E & _ & Hk & _).
  rewrite E in Hsol. injection Hsol as <-.
  rewrite fmap_app. simpl. rewrite Hk. f_equal.
  rewrite <- !list_fmap_compose. apply list_fmap_ext.
  intros i [k c] _. unfold evmReading. simpl.
  by destruct (evm_getBalance env _ _).
Qed.

Lemma batch_keys_witness :
  key <$> sample_batch = ["evm_ethereum"; "evm_base"; "solana"].
Proof.
  by destruct (batch_keys (sample_config 6) env_ok sample_prices sample_batch
                 emptyState sample_alerted [sample_eth_reading]
                 (sample_evaluated _ _ _ _)) as [-> _].
Defined.
